(** * aio_sf_streaming: the mixin layers of [mixins.py]

    A shallow embedding of the five mixins ([TimeoutAdviceMixin],
    [ReplayMixin], [AutoVersionMixin], [AutoReconnectMixin],
    [ReSubscribeMixin]) and the properties of their overridden methods.

    - JSON values are an inductive type; a JSON object is a finite map from
      strings, a Python [set] of channel names is a finite set.
    - A coroutine is a function from the state of the client to an outcome
      (a returned value or a raised exception) and the state it leaves: an
      exception keeps every effect that happened before it.
    - [super().m(..)] of a mixin is a section variable, so every statement
      holds for an arbitrary inner chain.
    - [loop.create_task(c)] appends a descriptor of [c] to the queue of
      scheduled tasks; the coroutine itself is not run by the caller.
    - An [async for] over [super().messages()] is the fold of its loop body
      over the frames the inner generator produces. *)

From Stdlib Require Import ZArith QArith Lia.
From Stdlib Require Import Floats.SpecFloat.
From stdpp Require Import gmap strings list fin_maps.

Set Default Proof Using "Type".
Local Open Scope Z_scope.

(** ** JSON values and Python values *)

(** [JFloat] carries a Python [float], an IEEE 754 binary64 value, in the
    representation of the specification of floating-point arithmetic of the
    standard library: a signed zero, an infinity, a NaN, or a sign, a
    mantissa and an exponent. *)
#[warnings="-register-all"]
Inductive json : Type :=
  | JNull
  | JBool (b : bool)
  | JInt (n : Z)
  | JFloat (x : spec_float)
  | JStr (s : string)
  | JList (l : list json)
  | JObj (m : gmap string json).

(** The exceptions the modelled code can meet. [Raised] stands for any
    exception coming from the inner chain or from a callback. *)
Inductive exn : Type :=
  | KeyError (key : json)
  | IndexError
  | TypeError
  | AttributeError
  | OverflowError
  | Raised (what : string).

Inductive outcome (A : Type) : Type :=
  | Return (a : A)
  | Raise (e : exn).
Arguments Return {A} a.
Arguments Raise {A} e.

(** [LookupError] is the common base class of [KeyError] and [IndexError]. *)
Definition is_LookupError (e : exn) : bool :=
  match e with
  | KeyError _ | IndexError => true
  | _ => false
  end.

(** *** Python operators on JSON values *)

(** [bool(v)] *)
Definition py_truthy (v : json) : bool :=
  match v with
  | JNull => false
  | JBool b => b
  | JInt n => negb (n =? 0)
  | JFloat x => match x with S754_zero _ => false | _ => true end
  | JStr s => negb (String.eqb s "")
  | JList l => match l with [] => false | _ => true end
  | JObj m => negb (bool_decide (m = ∅))
  end.

(** [v == s] for a string literal [s] *)
Definition py_eq_str (v : json) (s : string) : bool :=
  match v with
  | JStr t => String.eqb t s
  | _ => false
  end.

(** [v[k]] for a string key [k] *)
Definition py_getitem (v : json) (k : string) : outcome json :=
  match v with
  | JObj m => match m !! k with
              | Some x => Return x
              | None => Raise (KeyError (JStr k))
              end
  | _ => Raise TypeError
  end.

(** [v[i]] for an integer index [i]; a negative index counts from the end.
    A JSON object has string keys only, so an integer key is never found. *)
Definition py_getitem_int (v : json) (i : Z) : outcome json :=
  match v with
  | JList l =>
      let j := if i <? 0 then i + Z.of_nat (length l) else i in
      if j <? 0 then Raise IndexError
      else match l !! Z.to_nat j with
           | Some x => Return x
           | None => Raise IndexError
           end
  | JStr s =>
      let j := if i <? 0 then i + Z.of_nat (String.length s) else i in
      if j <? 0 then Raise IndexError
      else match String.get (Z.to_nat j) s with
           | Some c => Return (JStr (String c EmptyString))
           | None => Raise IndexError
           end
  | JObj _ => Raise (KeyError (JInt i))
  | _ => Raise TypeError
  end.

(** [v.get(k, default)]: only a [dict] has the method *)
Definition py_get (v : json) (k : string) (default : json) : outcome json :=
  match v with
  | JObj m => Return (match m !! k with Some x => x | None => default end)
  | _ => Raise AttributeError
  end.

(** [k in v] for a string [k] *)
Definition py_in (k : string) (v : json) : outcome bool :=
  match v with
  | JObj m => Return (match m !! k with Some _ => true | None => false end)
  | JList l => Return (existsb (fun x => py_eq_str x k) l)
  | JStr s => Return (match String.index 0 k s with Some _ => true | None => false end)
  | _ => Raise TypeError
  end.

(** [v.startswith(p)]: only a [str] has the method *)
Definition py_startswith (v : json) (p : string) : outcome bool :=
  match v with
  | JStr s => Return (String.prefix p s)
  | _ => Raise AttributeError
  end.

(** A result of binary64 arithmetic that Python turns into
    [OverflowError] when it is an infinity. *)
Definition finite_or_overflow (x : spec_float) : outcome spec_float :=
  match x with
  | S754_infinity _ => Raise OverflowError
  | _ => Return x
  end.

(** [float(n)] for an [int]: the binary64 value nearest to [n] (ties to
    even), [OverflowError] when [n] is too large for a [float]. *)
Definition float_of_int (n : Z) : outcome spec_float :=
  finite_or_overflow (binary_normalize 53 1024 n 0 false).

(** [n / d] for two [int]s, [d] positive: the binary64 value nearest to the
    quotient (ties to even), [OverflowError] when the quotient is too large
    for a [float]. *)
Definition int_truediv (n : Z) (d : positive) : outcome spec_float :=
  match n with
  | Z0 => Return (S754_zero false)
  | Zpos p =>
      finite_or_overflow
        (SFdiv 53 1024 (S754_finite false p 0) (S754_finite false d 0))
  | Zneg p =>
      finite_or_overflow
        (SFdiv 53 1024 (S754_finite true p 0) (S754_finite false d 0))
  end.

(** [v / d] for a positive integer literal [d]. [bool] is a subclass of
    [int]; a [float] is divided by [float(d)] in binary64 arithmetic, where
    an infinity or a NaN is a result like another. *)
Definition py_truediv (v : json) (d : positive) : outcome json :=
  match v with
  | JInt n =>
      match int_truediv n d with
      | Return x => Return (JFloat x)
      | Raise e => Raise e
      end
  | JBool b =>
      match int_truediv (if b then 1 else 0) d with
      | Return x => Return (JFloat x)
      | Raise e => Raise e
      end
  | JFloat x =>
      match float_of_int (Zpos d) with
      | Return y => Return (JFloat (SFdiv 53 1024 x y))
      | Raise e => Raise e
      end
  | _ => Raise TypeError
  end.

(** [v.setdefault(k, default)]: the dict after the call and the value the
    call returns *)
Definition py_setdefault (v : json) (k : string) (default : json) : outcome (json * json) :=
  match v with
  | JObj m => match m !! k with
              | Some x => Return (v, x)
              | None => Return (JObj (<[k := default]> m), default)
              end
  | _ => Raise AttributeError
  end.

(** [v[k] = x] for a string key [k]: the container after the assignment *)
Definition py_setitem (v : json) (k : string) (x : json) : outcome json :=
  match v with
  | JObj m => Return (JObj (<[k := x]> m))
  | _ => Raise TypeError
  end.

(** ** The state of a client and its coroutines *)

(** A coroutine handed to [loop.create_task]. *)
Inductive task : Type :=
  | TStoreReplayId (channel replay_id creation_time : json)
  | TSuperSubscribe (channel : string).

Inductive event : Type :=
  | ESleep (seconds : Q)
  | ECall (method : string) (arg : string).

Record world : Type := World {
  timeout : json;
  version : json;
  _subchannels : option (gset string);
  tasks : list task;
  trace : list event
}.

Definition set_timeout (t : json) (w : world) : world :=
  World t (version w) (_subchannels w) (tasks w) (trace w).
Definition set_version (v : json) (w : world) : world :=
  World (timeout w) v (_subchannels w) (tasks w) (trace w).
Definition set_subchannels (s : option (gset string)) (w : world) : world :=
  World (timeout w) (version w) s (tasks w) (trace w).
Definition add_tasks (ts : list task) (w : world) : world :=
  World (timeout w) (version w) (_subchannels w) (tasks w ++ ts) (trace w).
Definition add_event (e : event) (w : world) : world :=
  World (timeout w) (version w) (_subchannels w) (tasks w) (trace w ++ [e]).

Definition M (A : Type) : Type := world → outcome A * world.

Definition ret {A} (a : A) : M A := λ w, (Return a, w).
Definition raise {A} (e : exn) : M A := λ w, (Raise e, w).
Definition bind {A B} (c : M A) (k : A → M B) : M B :=
  λ w, match c w with
       | (Return a, w') => k a w'
       | (Raise e, w') => (Raise e, w')
       end.
Definition lift {A} (o : outcome A) : M A := λ w, (o, w).
Definition modify (f : world → world) : M unit := λ w, (Return tt, f w).
Definition reads {A} (f : world → A) : M A := λ w, (Return (f w), w).

Declare Scope py_scope.
Delimit Scope py_scope with py.
Notation "x ⇐ c ;; k" := (bind c (λ x, k))
  (at level 100, c at next level, right associativity) : py_scope.
Notation "c ;;; k" := (bind c (λ _, k))
  (at level 100, right associativity) : py_scope.
Local Open Scope py_scope.

(** [try: body except <caught>: pass] *)
Definition try_pass (body : M unit) (caught : exn → bool) : M unit :=
  λ w, match body w with
       | (Raise e, w') => if caught e then (Return tt, w') else (Raise e, w')
       | r => r
       end.

(** [loop.create_task(c)] *)
Definition create_task (t : task) : M unit := modify (add_tasks [t]).

(** [asyncio.sleep(d)] *)
Definition sleep (d : Q) : M unit := modify (add_event (ESleep d)).

(** *** Asynchronous generators

    What the consumer of a generator has seen after the inner generator
    produced [frames]: the frames yielded to it, and the exception that
    ended the generator, if any. The loop body returns [Some m] when it
    reaches [yield m] and [None] when it reaches [continue]. *)
Fixpoint async_for (body : json → M (option json)) (frames : list json)
    (w : world) : (list json * option exn) * world :=
  match frames with
  | [] => (([], None), w)
  | message :: rest =>
      match body message w with
      | (Raise e, w') => (([], Some e), w')
      | (Return y, w') =>
          let '((ys, stop), w'') := async_for body rest w' in
          ((match y with Some m => m :: ys | None => ys end, stop), w'')
      end
  end.

(** ** TimeoutAdviceMixin *)
Module TimeoutAdviceMixin.

(** The body of the [async for] loop of [messages]. *)
Definition messages_body (message : json) : M (option json) :=
  channel ⇐ lift (py_get message "channel" (JStr ""));;
  (if py_eq_str channel "/meta/connect" then
     has_advice ⇐ lift (py_in "advice" message);;
     if has_advice : bool then
       advice ⇐ lift (py_getitem message "advice");;
       timeout_advice ⇐ lift (py_get advice "timeout" JNull);;
       if py_truthy timeout_advice then
         seconds ⇐ lift (py_truediv timeout_advice 1000);;
         modify (set_timeout seconds)
       else ret tt
     else ret tt
   else ret tt);;;
  ret (Some message).

Definition messages (super_messages : list json) :=
  async_for messages_body super_messages.

End TimeoutAdviceMixin.

(** ** ReplayMixin *)

Inductive ReplayType : Type :=
  | ALL_EVENTS
  | NEW_EVENTS.

Definition ReplayType_value (t : ReplayType) : Z :=
  match t with
  | ALL_EVENTS => -2
  | NEW_EVENTS => -1
  end.

(** What the callback [get_last_replay_id] hands back: it is annotated
    [Union[ReplayType, int]], and the callback of the mixin itself has an
    empty body, which returns [None]. *)
Inductive last_replay_id : Type :=
  | NoReplayId
  | ReplayId (n : Z)
  | Special (t : ReplayType).

(** [bool(replay_id)]: [None] and the integer [0] are falsy; the members of
    a plain [enum.Enum] are all truthy. *)
Definition replay_truthy (r : last_replay_id) : bool :=
  match r with
  | NoReplayId => false
  | ReplayId n => negb (n =? 0)
  | Special _ => true
  end.

(** [int(replay_id)]: [int(None)] is a [TypeError]; so is [int] of an
    enumeration member. *)
Definition py_int (r : last_replay_id) : outcome Z :=
  match r with
  | ReplayId n => Return n
  | _ => Raise TypeError
  end.

Module ReplayMixin.
Section ReplayMixin.

Variable super_get_handshake_payload : M json.
Variable super_get_subscribe_payload : string → M json.
Variable get_last_replay_id : string → M last_replay_id.
Variable store_replay_id : json → json → json → M unit.

(** [ext.update({'replay': True})] changes the dict that [payload] holds
    under ['ext']: the last line writes the changed dict back. *)
Definition get_handshake_payload : M json :=
  payload ⇐ super_get_handshake_payload;;
  pe ⇐ lift (py_setdefault payload "ext" (JObj ∅));;
  ext ⇐ lift (match pe.2 with
              | JObj _ => py_setitem pe.2 "replay" (JBool true)
              | _ => Raise AttributeError
              end);;
  lift (py_setitem pe.1 "ext" ext).

(** The two [setdefault] calls return the dicts held by [payload]; the
    item assignment goes through [payload['ext']['replay']], the same
    objects, and the last two lines write them back. *)
Definition get_subscribe_payload (channel : string) : M json :=
  payload ⇐ super_get_subscribe_payload channel;;
  replay_id ⇐ get_last_replay_id channel;;
  let replay_id :=
    if negb (replay_truthy replay_id) then Special NEW_EVENTS else replay_id in
  let replay_id :=
    match replay_id with
    | Special t => ReplayId (ReplayType_value t)
    | _ => replay_id
    end in
  replay_id ⇐ lift (py_int replay_id);;
  pe ⇐ lift (py_setdefault payload "ext" (JObj ∅));;
  er ⇐ lift (py_setdefault pe.2 "replay" (JObj ∅));;
  replay ⇐ lift (py_setitem er.2 channel (JInt replay_id));;
  ext ⇐ lift (py_setitem er.1 "replay" replay);;
  lift (py_setitem pe.1 "ext" ext).

(** The body of the [async for] loop of [messages]. *)
Definition messages_body (message : json) : M (option json) :=
  channel ⇐ lift (py_getitem message "channel");;
  is_meta ⇐ lift (py_startswith channel "/meta/");;
  (if negb is_meta then
     data ⇐ lift (py_getitem message "data");;
     event ⇐ lift (py_getitem data "event");;
     replay_id ⇐ lift (py_getitem event "replayId");;
     creation_time ⇐ lift (py_getitem event "createdDate");;
     create_task (TStoreReplayId channel replay_id creation_time)
   else ret tt);;;
  ret (Some message).

Definition messages (super_messages : list json) :=
  async_for messages_body super_messages.

(** What the event loop runs when it gets to a task of this layer. *)
Definition run_task (t : task) : M unit :=
  match t with
  | TStoreReplayId channel replay_id creation_time =>
      store_replay_id channel replay_id creation_time
  | _ => ret tt
  end.

End ReplayMixin.
End ReplayMixin.

(** ** AutoVersionMixin *)
Module AutoVersionMixin.
Section AutoVersionMixin.

Variable get : string → M json.
Variable super_handshake : M json.

(** [except (IndexError, KeyError)] *)
Definition IndexError_or_KeyError (e : exn) : bool :=
  match e with
  | IndexError | KeyError _ => true
  | _ => false
  end.

Definition handshake : M json :=
  data ⇐ get "/services/data/";;
  try_pass
    (last ⇐ lift (py_getitem_int data (-1));;
     v ⇐ lift (py_getitem last "version");;
     modify (set_version v))
    IndexError_or_KeyError;;;
  super_handshake.

End AutoVersionMixin.
End AutoVersionMixin.

(** ** AutoReconnectMixin *)

(** [for x in xs: body(x)] *)
Fixpoint for_each {A} (xs : list A) (body : A → M unit) : M unit :=
  match xs with
  | [] => ret tt
  | x :: rest => body x;;; for_each rest body
  end.

Module AutoReconnectMixin.
Section AutoReconnectMixin.

Variable super_start : M unit.
Variable super_stop : M unit.
Variable super_subscribe : string → M json.
Variable super_unsubscribe : string → M json.
Variable super_handshake : M json.

Definition start : M unit :=
  modify (set_subchannels (Some ∅));;;
  super_start.

(** [self._subchannels.add(channel)]; [None] has no method [add]. *)
Definition subchannels_add (channel : string) : M unit :=
  λ w, match _subchannels w with
       | Some s => (Return tt, set_subchannels (Some ({[channel]} ∪ s)) w)
       | None => (Raise AttributeError, w)
       end.

(** [self._subchannels.remove(channel)]: [set.remove] raises [KeyError]
    when the element is not in the set. *)
Definition subchannels_remove (channel : string) : M unit :=
  λ w, match _subchannels w with
       | Some s =>
           if bool_decide (channel ∈ s)
           then (Return tt, set_subchannels (Some (s ∖ {[channel]})) w)
           else (Raise (KeyError (JStr channel)), w)
       | None => (Raise AttributeError, w)
       end.

(** [iter(self._subchannels)]; [None] is not iterable. *)
Definition subchannels_iter : M (list string) :=
  λ w, match _subchannels w with
       | Some s => (Return (elements s), w)
       | None => (Raise TypeError, w)
       end.

Definition subscribe (channel : string) : M json :=
  subchannels_add channel;;;
  super_subscribe channel.

Definition unsubscribe (channel : string) : M json :=
  subchannels_remove channel;;;
  super_unsubscribe channel.

Definition stop : M unit :=
  super_stop;;;
  modify (set_subchannels None).

Definition handshake : M json :=
  response ⇐ super_handshake;;
  channels ⇐ subchannels_iter;;
  for_each channels (λ channel, create_task (TSuperSubscribe channel));;;
  ret response.

(** The body of the [async for] loop of [messages]; [self_handshake] is
    what [self.handshake] resolves to in the class of the client. *)
Definition messages_body (self_handshake : M json) (message : json)
    : M (option json) :=
  channel ⇐ lift (py_getitem message "channel");;
  is_meta ⇐ lift (py_startswith channel "/meta/");;
  asked ⇐ (if is_meta : bool then
             error ⇐ lift (py_get message "error" JNull);;
             ret (py_eq_str error "403::Unknown client")
           else ret false);;
  if asked : bool then
    self_handshake;;;
    ret None
  else ret (Some message).

Definition messages (self_handshake : M json) (super_messages : list json) :=
  async_for (messages_body self_handshake) super_messages.

(** What the event loop runs when it gets to a task of this layer. *)
Definition run_task (t : task) : M unit :=
  match t with
  | TSuperSubscribe channel => super_subscribe channel;;; ret tt
  | _ => ret tt
  end.

End AutoReconnectMixin.
End AutoReconnectMixin.

(** ** ReSubscribeMixin *)
Module ReSubscribeMixin.
Section ReSubscribeMixin.

Variable retry_sub_duration : Q.
Variable super_subscribe : string → M json.

(** [response[0].get('ext', {}).get('sfdc', {}).get('failureReason', '')
    .startswith('SERVER_UNAVAILABLE')] *)
Definition known_error (response : json) : outcome bool :=
  match py_getitem_int response 0 with
  | Raise e => Raise e
  | Return first =>
      match py_get first "ext" (JObj ∅) with
      | Raise e => Raise e
      | Return ext =>
          match py_get ext "sfdc" (JObj ∅) with
          | Raise e => Raise e
          | Return sfdc =>
              match py_get sfdc "failureReason" (JStr "") with
              | Raise e => Raise e
              | Return reason => py_startswith reason "SERVER_UNAVAILABLE"
              end
          end
      end
  end.

(** [not response or response[0]['successful']] *)
Definition finished (response : json) : outcome bool :=
  if negb (py_truthy response) then Return true
  else match py_getitem_int response 0 with
       | Raise e => Raise e
       | Return first =>
           match py_getitem first "successful" with
           | Raise e => Raise e
           | Return ok => Return (py_truthy ok)
           end
       end.

(** [subscribe] is a [while True] loop: [fuel] bounds the number of turns
    of the loop, and [None] is returned when the bound is reached before
    the loop has left through one of its [return]s. *)
Fixpoint subscribe (fuel : nat) (channel : string) : M (option json) :=
  match fuel with
  | O => ret None
  | S fuel' =>
      response ⇐ super_subscribe channel;;
      done ⇐ lift (finished response);;
      if done : bool then ret (Some response)
      else
        known ⇐ lift (known_error response);;
        if negb known then ret (Some response)
        else
          sleep retry_sub_duration;;;
          subscribe fuel' channel
  end.

End ReSubscribeMixin.
End ReSubscribeMixin.

(** ** Shapes of inputs and observations

    The words the statements below use for the inputs of the layers. *)

(** [payload['ext']['replay'][channel]], read from a subscribe payload. *)
Definition sent_replay (payload : json) (channel : string) : option json :=
  match payload with
  | JObj p =>
      match p !! "ext" with
      | Some (JObj e) =>
          match e !! "replay" with
          | Some (JObj r) => r !! channel
          | _ => None
          end
      | _ => None
      end
  | _ => None
  end.

(** A subscribe payload of the inner chain that the replay extension can be
    added to: a JSON object whose ['ext'], when it has one, is an object
    whose ['replay'], when it has one, is an object. *)
Definition replay_ext_ok (payload : json) : bool :=
  match payload with
  | JObj p =>
      match p !! "ext" with
      | None => true
      | Some (JObj e) =>
          match e !! "replay" with
          | None | Some (JObj _) => true
          | _ => false
          end
      | _ => false
      end
  | _ => false
  end.

(** A frame without a [data] field, or whose [data] has no [event] carrying
    both [replayId] and [createdDate]. *)
Definition lacks_replay_event (m : gmap string json) : Prop :=
  m !! "data" = None
  ∨ ∃ d, m !! "data" = Some (JObj d)
         ∧ (d !! "event" = None
            ∨ ∃ e, d !! "event" = Some (JObj e)
                   ∧ (e !! "replayId" = None ∨ e !! "createdDate" = None)).

(** A subscribe result record [o] whose [successful] field is falsy. *)
Definition unsuccessful (o : gmap string json) : Prop :=
  ∃ ok, o !! "successful" = Some ok ∧ py_truthy ok = false.

(** The result record [o] carries [ext.sfdc.failureReason = reason]. *)
Definition failure_reason (o : gmap string json) (reason : string) : Prop :=
  ∃ x s, o !! "ext" = Some (JObj x)
         ∧ x !! "sfdc" = Some (JObj s)
         ∧ s !! "failureReason" = Some (JStr reason).

(** A subscribe response whose first result is unsuccessful with a failure
    reason starting with [SERVER_UNAVAILABLE]. *)
Definition server_unavailable (response : json) : Prop :=
  ∃ o rest reason,
    response = JList (JObj o :: rest)
    ∧ unsuccessful o
    ∧ failure_reason o reason
    ∧ String.prefix "SERVER_UNAVAILABLE" reason = true.

(** One turn of the retry loop that does not leave it: the inner
    [subscribe] is called, then the layer sleeps for [d] seconds. *)
Definition retry_turn (d : Q) (super_subscribe : string → M json)
    (channel : string) (w : world) : world :=
  add_event (ESleep d) (super_subscribe channel w).2.

(** The discovery responses on which the lookup [data[-1]['version']]
    either finds a version or ends in [IndexError] or [KeyError]:
    [discovered data (Some v)] when the last entry of the sequence is an
    object with version [v]; [discovered data None] when the sequence is
    empty, when its last entry is an object without a version, and when
    the response is an object and not a sequence. *)
Inductive discovered : json → option json → Prop :=
  | discovered_last l d v :
      last l = Some (JObj d) → d !! "version" = Some v →
      discovered (JList l) (Some v)
  | discovered_empty :
      discovered (JList []) None
  | discovered_no_version l d :
      last l = Some (JObj d) → d !! "version" = None →
      discovered (JList l) None
  | discovered_object m :
      discovered (JObj m) None.

(** ** Sample frames, responses and inner clients

    Concrete values on which the statements below are run. The inner
    clients record each call in the trace. *)
Module Samples.

Definition w0 : world :=
  World (JInt 120) (JStr "36.0") (Some ∅) [] [].

Definition connect_frame (T : Z) : json :=
  JObj (<["channel" := JStr "/meta/connect"]>
       (<["advice" := JObj {["timeout" := JInt T]}]>
       (<["successful" := JBool true]> ∅))).

Definition event_of (replay_id : Z) (created : string) : json :=
  JObj (<["replayId" := JInt replay_id]> {["createdDate" := JStr created]}).

Definition data_frame (channel : string) (replay_id : Z) (created : string) : json :=
  JObj (<["channel" := JStr channel]>
       {["data" := JObj {["event" := event_of replay_id created]}]}).

Definition no_data_frame (channel : string) : json :=
  JObj {["channel" := JStr channel]}.

Definition unknown_client_frame : json :=
  JObj (<["channel" := JStr "/meta/connect"]>
       (<["successful" := JBool false]>
       {["error" := JStr "403::Unknown client"]})).

Definition ok_response : json :=
  JList [JObj {["successful" := JBool true]}].

Definition failed_response (reason : string) : json :=
  JList [JObj (<["successful" := JBool false]>
              {["ext" := JObj {["sfdc" := JObj {["failureReason" := JStr reason]}]}]})].

Definition called (method arg : string) (r : json) : M json :=
  λ w, (Return r, add_event (ECall method arg) w).

Definition base_handshake : M json := called "handshake" "" ok_response.
Definition base_subscribe (channel : string) : M json :=
  called "subscribe" channel ok_response.
Definition base_unsubscribe (channel : string) : M json :=
  called "unsubscribe" channel ok_response.
Definition busy_subscribe (channel : string) : M json :=
  called "subscribe" channel (failed_response "SERVER_UNAVAILABLE - limit").
Definition denied_subscribe (channel : string) : M json :=
  called "subscribe" channel (failed_response "DENIED").

Definition base_get_subscribe_payload (channel : string) : M json :=
  ret (JObj (<["channel" := JStr "/meta/subscribe"]> {["subscription" := JStr channel]})).

(** A replay store that knows one cursor for every channel. *)
Definition stored (r : last_replay_id) (channel : string) : M last_replay_id :=
  ret r.

(** A discovery resource with a fixed body. *)
Definition discovery (body : json) (path : string) : M json :=
  called "get" path body.

Definition two_versions : json :=
  JList [JObj {["version" := JStr "38.0"]}; JObj {["version" := JStr "42.0"]}].

(** A client made of [AutoReconnectMixin] over the base client, after
    [start()], [subscribe("/topic/X")] and [unsubscribe("/topic/X")]. *)
Definition started_subscribed_unsubscribed : outcome json * world :=
  (AutoReconnectMixin.start (ret tt);;;
   AutoReconnectMixin.subscribe base_subscribe "/topic/X";;;
   AutoReconnectMixin.unsubscribe base_unsubscribe "/topic/X")%py
    (World (JInt 120) (JStr "36.0") None [] []).

(** The same client after [start()] and two [subscribe] calls. *)
Definition two_subscriptions : world :=
  ((AutoReconnectMixin.start (ret tt);;;
    AutoReconnectMixin.subscribe base_subscribe "/topic/X";;;
    AutoReconnectMixin.subscribe base_subscribe "/topic/Y")%py
     (World (JInt 120) (JStr "36.0") None [] [])).2.

(** [ext.replay["/topic/X"]] of the subscribe payload when the store
    answers [r]. *)
Definition sample_sent (r : last_replay_id) : option json :=
  match ReplayMixin.get_subscribe_payload base_get_subscribe_payload
          (stored r) "/topic/X" w0 with
  | (Return payload, _) => sent_replay payload "/topic/X"
  | _ => None
  end.

End Samples.

(** ** AllMixin

    [AllMixin] has no method of its own: its bases are, in the order of
    method resolution, [TimeoutAdviceMixin], [AutoVersionMixin],
    [ReplayMixin], [AutoReconnectMixin] and [ReSubscribeMixin], followed by
    the base client of the class that uses it. *)

(** A generator [outer] iterating over a generator [inner]: [outer] is
    handed a frame when [inner] yields it, before [inner] moves on. *)
Definition through (inner outer : json → M (option json)) (message : json)
    : M (option json) :=
  y ⇐ inner message;;
  match y with
  | Some m => outer m
  | None => ret None
  end.

Module AllMixin.
Section AllMixin.

Variable get : string → M json.
Variable base_handshake : M json.

(** [handshake] resolves to [AutoVersionMixin.handshake], whose
    [super().handshake] is [AutoReconnectMixin.handshake], whose
    [super().handshake] is the one of the base client. *)
Definition handshake : M json :=
  AutoVersionMixin.handshake get (AutoReconnectMixin.handshake base_handshake).

(** [messages] resolves to [TimeoutAdviceMixin.messages], which iterates
    over [ReplayMixin.messages], which iterates over
    [AutoReconnectMixin.messages], which iterates over the frames of the
    base client. *)
Definition messages_body : json → M (option json) :=
  through
    (through (AutoReconnectMixin.messages_body handshake)
             ReplayMixin.messages_body)
    TimeoutAdviceMixin.messages_body.

Definition messages (base_messages : list json) :=
  async_for messages_body base_messages.

End AllMixin.
End AllMixin.

(** ** More shapes of inputs *)

Definition is_object (v : json) : bool :=
  match v with
  | JObj _ => true
  | _ => false
  end.

(** A frame with a [channel] that is a string. *)
Definition has_channel (message : json) : Prop :=
  ∃ m ch, message = JObj m ∧ m !! "channel" = Some (JStr ch).

(** A frame of a meta channel whose [error] is the string
    ["403::Unknown client"]. *)
Definition asks_handshake (message : json) : bool :=
  match message with
  | JObj m =>
      match m !! "channel", m !! "error" with
      | Some (JStr ch), Some (JStr e) =>
          String.prefix "/meta/" ch && String.eqb e "403::Unknown client"
      | _, _ => false
      end
  | _ => false
  end.

(** The tasks a frame calls for in the replay layer: none for a frame of a
    meta channel, one [store_replay_id] for a frame of another channel
    whose [data.event] is an object with [replayId] and [createdDate];
    [None] for every other value. *)
Definition store_tasks (message : json) : option (list task) :=
  match message with
  | JObj m =>
      match m !! "channel" with
      | Some (JStr ch) =>
          if String.prefix "/meta/" ch then Some []
          else match m !! "data" with
               | Some (JObj d) =>
                   match d !! "event" with
                   | Some (JObj e) =>
                       match e !! "replayId", e !! "createdDate" with
                       | Some r, Some t => Some [TStoreReplayId (JStr ch) r t]
                       | _, _ => None
                       end
                   | _ => None
                   end
               | _ => None
               end
      | _ => None
      end
  | _ => None
  end.

(** [int], [float] and [bool] values: the ones Python can divide. *)
Definition is_number (v : json) : bool :=
  match v with
  | JInt _ | JFloat _ | JBool _ => true
  | _ => false
  end.

(** A frame on which the timeout layer has nothing to read: an object that
    is not on [/meta/connect], or has no [advice], or whose [advice] is an
    object without a truthy [timeout]. *)
Definition no_timeout_advice (message : json) : bool :=
  match message with
  | JObj m =>
      if py_eq_str (default (JStr "") (m !! "channel")) "/meta/connect" then
        match m !! "advice" with
        | None => true
        | Some (JObj a) =>
            match a !! "timeout" with
            | None => true
            | Some t => negb (py_truthy t)
            end
        | Some _ => false
        end
      else true
  | _ => false
  end.

(** A result record without a failure reason: no [ext], or an [ext] object
    without [sfdc], or an [sfdc] object without [failureReason]. *)
Definition no_failure_reason (o : gmap string json) : Prop :=
  o !! "ext" = None
  ∨ ∃ x, o !! "ext" = Some (JObj x)
         ∧ (x !! "sfdc" = None
            ∨ ∃ s, x !! "sfdc" = Some (JObj s) ∧ s !! "failureReason" = None).

(** A response on which the retry loop returns: a falsy one, one whose
    first result is successful, and one whose first result is unsuccessful
    with a failure reason that does not start with [SERVER_UNAVAILABLE]
    or with no failure reason. *)
Definition settles (response : json) : Prop :=
  py_truthy response = false
  ∨ ∃ o rest, response = JList (JObj o :: rest)
      ∧ ((∃ ok, o !! "successful" = Some ok ∧ py_truthy ok = true)
         ∨ (unsuccessful o
            ∧ ((∃ reason, failure_reason o reason
                          ∧ String.prefix "SERVER_UNAVAILABLE" reason = false)
               ∨ no_failure_reason o))).

Module Scenarios.

(** A subscribe that is answered [SERVER_UNAVAILABLE] while fewer than
    [busy] calls are in the trace, and accepted afterward. *)
Definition calls (w : world) : nat :=
  length (List.filter (λ e, match e with ECall _ _ => true | _ => false end)
            (trace w)).

Definition eventually_subscribe (busy : nat) (channel : string) : M json :=
  λ w, if (calls w <? busy)%nat
       then Samples.busy_subscribe channel w
       else Samples.base_subscribe channel w.

Definition failing_handshake : M json :=
  λ w, (Raise (Raised "connection lost"), add_event (ECall "handshake" "") w).

Definition failing_get (path : string) : M json :=
  λ w, (Raise (Raised "connection lost"), add_event (ECall "get" path) w).

Definition handshake_payload : json :=
  JObj (<["channel" := JStr "/meta/handshake"]>
       {["ext" := JObj {["custom" := JInt 7]}]}).

Definition subscribe_payload_with_replay : json :=
  JObj (<["channel" := JStr "/meta/subscribe"]>
       (<["subscription" := JStr "/topic/X"]>
       {["ext" := JObj (<["custom" := JInt 7]>
                        {["replay" := JObj {["/topic/Y" := JInt 5]}]})]})).

Definition unknown_client_with_advice : json :=
  JObj (<["channel" := JStr "/meta/connect"]>
       (<["advice" := JObj {["timeout" := JInt 5000]}]>
       {["error" := JStr "403::Unknown client"]})).

Definition not_started : world :=
  World (JInt 120) (JStr "36.0") None [] [].

End Scenarios.

(** ** Generic facts on coroutines and generators *)

Lemma async_for_yield body message rest w y w' :
  body message w = (Return (Some y), w') →
  async_for body (message :: rest) w =
    ((y :: (async_for body rest w').1.1, (async_for body rest w').1.2),
     (async_for body rest w').2).
Proof.
  intros H. cbn [async_for]. rewrite H.
  destruct (async_for body rest w') as [[ys stop] w'']. reflexivity.
Qed.

Lemma async_for_continue body message rest w w' :
  body message w = (Return None, w') →
  async_for body (message :: rest) w = async_for body rest w'.
Proof.
  intros H. cbn [async_for]. rewrite H.
  destruct (async_for body rest w') as [[ys stop] w'']. reflexivity.
Qed.

Lemma async_for_raise body message rest w e w' :
  body message w = (Raise e, w') →
  async_for body (message :: rest) w = (([], Some e), w').
Proof. intros H. cbn [async_for]. rewrite H. reflexivity. Qed.

(** ** TimeoutAdviceMixin: the advised timeout *)

(** C6: a [/meta/connect] frame with [advice.timeout = 0] is yielded
    unchanged, but the session timeout stays at its former value, here
    [120], where the claim has it become [0 / 1000], the float [0.0]. *)
Theorem timeout_advice_zero_is_ignored :
  TimeoutAdviceMixin.messages_body (Samples.connect_frame 0) Samples.w0
    = (Return (Some (Samples.connect_frame 0)), Samples.w0)
  ∧ timeout Samples.w0 = JInt 120
  ∧ py_truediv (JInt 0) 1000 = Return (JFloat (S754_zero false))
  ∧ timeout Samples.w0 ≠ JFloat (S754_zero false).
Proof.
  split; [vm_compute; reflexivity|].
  split; [reflexivity|]. split; [reflexivity | discriminate].
Qed.

(** ** ReplayMixin: the subscribe payload *)

(** The integer the layer writes for an answer of the store, on a payload
    of the inner chain that the extension can be added to. *)
Lemma get_subscribe_payload_sent
    (super_get_subscribe_payload : string → M json)
    (get_last_replay_id : string → M last_replay_id)
    channel w payload w1 a w2 :
  super_get_subscribe_payload channel w = (Return payload, w1) →
  replay_ext_ok payload = true →
  get_last_replay_id channel w1 = (Return a, w2) →
  ∃ payload',
    ReplayMixin.get_subscribe_payload super_get_subscribe_payload
      get_last_replay_id channel w = (Return payload', w2)
    ∧ sent_replay payload' channel =
        Some (JInt match a with
                   | NoReplayId => -1
                   | ReplayId n => if n =? 0 then -1 else n
                   | Special t => ReplayType_value t
                   end).
Proof.
  intros Hp Hok Ha.
  unfold ReplayMixin.get_subscribe_payload, bind. rewrite Hp, Ha. cbv zeta.
  set (n := match a with NoReplayId => -1 | ReplayId n => if n =? 0 then -1 else n
            | Special t => ReplayType_value t end).
  replace (lift (py_int _) w2) with (@Return Z n, w2); cycle 1.
  { subst n. unfold lift. destruct a as [|k|t]; cbn; [reflexivity| |reflexivity].
    destruct (k =? 0); reflexivity. }
  clearbody n.
  destruct payload as [| | | | | |p]; try discriminate.
  unfold replay_ext_ok in Hok. unfold lift, py_setdefault at 1.
  destruct (p !! "ext") as [[| | | | | |e]|] eqn:He; try discriminate.
  - cbn [fst snd]. unfold py_setdefault.
    destruct (e !! "replay") as [[| | | | | |r]|] eqn:Hr; try discriminate.
    + cbn [fst snd py_setitem]. eexists; split; [reflexivity|].
      unfold sent_replay. rewrite !lookup_insert_eq. reflexivity.
    + cbn [fst snd py_setitem]. eexists; split; [reflexivity|].
      unfold sent_replay. rewrite !lookup_insert_eq. reflexivity.
  - cbn [fst snd]. unfold py_setdefault. rewrite lookup_empty.
    cbn [fst snd py_setitem]. eexists; split; [reflexivity|].
    unfold sent_replay. rewrite !lookup_insert_eq. reflexivity.
Qed.

(** C4: on channel ["/topic/X"], [get_subscribe_payload] sends [-1] when
    the store has no cursor, [1234] for the stored cursor [1234] and [-2]
    for the sentinel of all events; for the stored cursor [0] it sends
    [-1] and not [0]. *)
Theorem subscribe_payload_replay_values :
  Samples.sample_sent NoReplayId = Some (JInt (-1))
  ∧ Samples.sample_sent (ReplayId 1234) = Some (JInt 1234)
  ∧ Samples.sample_sent (Special ALL_EVENTS) = Some (JInt (-2))
  ∧ Samples.sample_sent (ReplayId 0) = Some (JInt (-1))
  ∧ Samples.sample_sent (ReplayId 0) ≠ Some (JInt 0).
Proof. repeat split; try (vm_compute; reflexivity). vm_compute. discriminate. Qed.

(** C9: when the store returns the integer cursor [0], the payload carries
    [ext.replay[channel] = -1], the value of [NEW_EVENTS]: [0] is falsy,
    and the call returns what it returns for a store without a cursor. *)
Theorem stored_zero_sends_new_events
    (super_get_subscribe_payload : string → M json)
    (get_last_replay_id no_replay_id : string → M last_replay_id)
    channel w payload w1 w2 :
  super_get_subscribe_payload channel w = (Return payload, w1) →
  replay_ext_ok payload = true →
  get_last_replay_id channel w1 = (Return (ReplayId 0), w2) →
  no_replay_id channel w1 = (Return NoReplayId, w2) →
  replay_truthy (ReplayId 0) = false
  ∧ (∃ payload',
       ReplayMixin.get_subscribe_payload super_get_subscribe_payload
         get_last_replay_id channel w = (Return payload', w2)
       ∧ sent_replay payload' channel = Some (JInt (ReplayType_value NEW_EVENTS)))
  ∧ ReplayMixin.get_subscribe_payload super_get_subscribe_payload
      get_last_replay_id channel w
    = ReplayMixin.get_subscribe_payload super_get_subscribe_payload
        no_replay_id channel w.
Proof.
  intros Hp Hok Ha Hnone. split; [reflexivity|]. split.
  - destruct (get_subscribe_payload_sent _ _ _ _ _ _ _ _ Hp Hok Ha)
      as (payload' & Hrun & Hsent).
    exists payload'. split; [exact Hrun | exact Hsent].
  - unfold ReplayMixin.get_subscribe_payload, bind.
    rewrite Hp, Ha, Hnone. reflexivity.
Qed.

Lemma stored_zero_sends_new_events_witness :
  ∃ payload',
    ReplayMixin.get_subscribe_payload Samples.base_get_subscribe_payload
      (Samples.stored (ReplayId 0)) "/topic/X" Samples.w0
      = (Return payload', Samples.w0)
    ∧ sent_replay payload' "/topic/X" = Some (JInt (-1)).
Proof.
  apply (stored_zero_sends_new_events Samples.base_get_subscribe_payload
           (Samples.stored (ReplayId 0)) (Samples.stored NoReplayId)
           "/topic/X" Samples.w0
           (JObj (<["channel" := JStr "/meta/subscribe"]>
                    {["subscription" := JStr "/topic/X"]}))
           Samples.w0 Samples.w0); reflexivity.
Defined.

(** ** ReplayMixin: the message stream *)



(** When [data], or the [event] of an object [data], is present but is not
    a JSON object, the indexing raises [TypeError]. *)
Lemma replay_messages_raises_on_non_object
    (m : gmap string json) (ch : string) (v : json) (w : world) :
  m !! "channel" = Some (JStr ch) →
  String.prefix "/meta/" ch = false →
  (∀ o, v ≠ JObj o) →
  (m !! "data" = Some v
   ∨ ∃ d, m !! "data" = Some (JObj d) ∧ d !! "event" = Some v) →
  ReplayMixin.messages_body (JObj m) w = (Raise TypeError, w).
Proof.
  intros Hc Hmeta Hv Hshape.
  unfold ReplayMixin.messages_body, bind, lift, py_getitem, py_startswith.
  rewrite Hc, Hmeta. cbn [negb].
  destruct Hshape as [Hd | (d & Hd & He)].
  - rewrite Hd. destruct v; try reflexivity. exfalso. eapply Hv. reflexivity.
  - rewrite Hd, He. destruct v; try reflexivity. exfalso. eapply Hv. reflexivity.
Qed.

(** ** AutoVersionMixin: the discovered version *)

Lemma py_getitem_int_last (l : list json) (x : json) :
  last l = Some x → py_getitem_int (JList l) (-1) = Return x.
Proof.
  intros Hl. rewrite last_lookup in Hl.
  assert (length l ≠ 0%nat) as Hlen.
  { intros H0. destruct l; [discriminate | discriminate H0]. }
  unfold py_getitem_int. cbn [Z.ltb Z.compare].
  replace (-1 + Z.of_nat (length l) <? 0) with false
    by (symmetry; apply Z.ltb_ge; lia).
  replace (Z.to_nat (-1 + Z.of_nat (length l))) with (Init.Nat.pred (length l))
    by lia.
  rewrite Hl. reflexivity.
Qed.

(** C7, as stated, fails: the discovery response [["38.0"]], a sequence
    whose entries are not objects, makes [handshake] raise [TypeError]
    after the read; the inner handshake is never called. *)
Lemma malformed_discovery_aborts_handshake :
  AutoVersionMixin.handshake (Samples.discovery (JList [JStr "38.0"]))
    Samples.base_handshake Samples.w0
  = (Raise TypeError, add_event (ECall "get" "/services/data/") Samples.w0).
Proof. vm_compute. reflexivity. Qed.

(** C7, amended: when the discovery response is a sequence whose last
    entry is an object with a version, [handshake] sets the session version
    to it; when the response is an empty sequence, a sequence whose last
    entry is an object without a version, or an object, the version is
    left as it was and no exception leaves the discovery step. In both
    cases the inner [handshake] runs afterward, on that state, and its
    outcome is returned unchanged. *)
Theorem auto_version_handshake
    (get : string → M json) (super_handshake : M json)
    (w : world) (data : json) (w1 : world) (found : option json) :
  get "/services/data/" w = (Return data, w1) →
  discovered data found →
  AutoVersionMixin.handshake get super_handshake w =
    super_handshake match found with
                    | Some v => set_version v w1
                    | None => w1
                    end.
Proof.
  intros Hget Hd.
  unfold AutoVersionMixin.handshake, bind at 1. rewrite Hget.
  unfold bind at 1, try_pass, bind, lift.
  destruct Hd as [l d v Hl Hv | | l d Hl Hv | m].
  - rewrite (py_getitem_int_last _ _ Hl). unfold py_getitem. rewrite Hv.
    reflexivity.
  - reflexivity.
  - rewrite (py_getitem_int_last _ _ Hl). unfold py_getitem. rewrite Hv.
    reflexivity.
  - reflexivity.
Qed.

Lemma auto_version_handshake_witness :
  AutoVersionMixin.handshake (Samples.discovery Samples.two_versions)
    Samples.base_handshake Samples.w0
  = Samples.base_handshake
      (set_version (JStr "42.0")
         (add_event (ECall "get" "/services/data/") Samples.w0))
  ∧ AutoVersionMixin.handshake (Samples.discovery (JList []))
      Samples.base_handshake Samples.w0
    = Samples.base_handshake (add_event (ECall "get" "/services/data/") Samples.w0).
Proof.
  split.
  - apply (auto_version_handshake (Samples.discovery Samples.two_versions)
             Samples.base_handshake Samples.w0 Samples.two_versions _
             (Some (JStr "42.0"))).
    + reflexivity.
    + apply (discovered_last _ {["version" := JStr "42.0"]}); reflexivity.
  - apply (auto_version_handshake (Samples.discovery (JList []))
             Samples.base_handshake Samples.w0 (JList []) _ None).
    + reflexivity.
    + apply discovered_empty.
Defined.

(** ** AutoReconnectMixin *)

(** C2, as stated, fails: after [start()], [subscribe("/topic/X")] and a
    first [unsubscribe("/topic/X")], the channel is no longer in the set
    and a second [unsubscribe("/topic/X")] raises [KeyError] from the
    removal. *)
Lemma repeated_unsubscribe_raises :
  Samples.started_subscribed_unsubscribed.1 = Return Samples.ok_response
  ∧ _subchannels Samples.started_subscribed_unsubscribed.2 = Some ∅
  ∧ AutoReconnectMixin.unsubscribe Samples.base_unsubscribe "/topic/X"
      Samples.started_subscribed_unsubscribed.2
    = (Raise (KeyError (JStr "/topic/X")), Samples.started_subscribed_unsubscribed.2).
Proof. repeat split; vm_compute; reflexivity. Qed.

(** C2, amended: for every channel that is not in the subscription set,
    [unsubscribe(channel)] raises [KeyError] from the removal: the set and
    the rest of the state are left as they were, and the inner
    [unsubscribe] is not called. *)
Theorem unsubscribe_unknown_channel_raises
    (super_unsubscribe : string → M json) (channel : string)
    (s : gset string) (w : world) :
  _subchannels w = Some s →
  channel ∉ s →
  AutoReconnectMixin.unsubscribe super_unsubscribe channel w
    = (Raise (KeyError (JStr channel)), w).
Proof.
  intros Hs Hnot.
  unfold AutoReconnectMixin.unsubscribe, bind,
    AutoReconnectMixin.subchannels_remove.
  rewrite Hs. rewrite bool_decide_eq_false_2 by exact Hnot. reflexivity.
Qed.

Lemma unsubscribe_unknown_channel_raises_witness :
  AutoReconnectMixin.unsubscribe Samples.base_unsubscribe "/topic/X" Samples.w0
    = (Raise (KeyError (JStr "/topic/X")), Samples.w0).
Proof.
  apply (unsubscribe_unknown_channel_raises Samples.base_unsubscribe "/topic/X" ∅).
  - reflexivity.
  - apply not_elem_of_empty.
Defined.

Lemma for_each_create_task (channels : list string) (w : world) :
  for_each channels (λ channel, create_task (TSuperSubscribe channel)) w
    = (Return tt, add_tasks (TSuperSubscribe <$> channels) w).
Proof.
  revert w. induction channels as [|c channels IH]; intros w.
  - cbn. unfold ret, add_tasks. rewrite app_nil_r. destruct w; reflexivity.
  - cbn [for_each fmap list_fmap]. unfold bind, create_task, modify.
    rewrite IH. unfold add_tasks. cbn. rewrite <- app_assoc. reflexivity.
Qed.

(** When the inner handshake completes, [handshake] returns its response
    and adds one task [super().subscribe(channel)] per channel of the set. *)
Lemma handshake_resubscribes (super_handshake : M json) w response w1 s :
  super_handshake w = (Return response, w1) →
  _subchannels w1 = Some s →
  AutoReconnectMixin.handshake super_handshake w
    = (Return response, add_tasks (TSuperSubscribe <$> elements s) w1).
Proof.
  intros Hh Hs.
  unfold AutoReconnectMixin.handshake, bind at 1. rewrite Hh.
  unfold bind at 1, AutoReconnectMixin.subchannels_iter. rewrite Hs.
  unfold bind. rewrite for_each_create_task. reflexivity.
Qed.



(** ** ReSubscribeMixin *)

Lemma py_getitem_int_first (x : json) (rest : list json) :
  py_getitem_int (JList (x :: rest)) 0 = Return x.
Proof. reflexivity. Qed.

Lemma known_error_reason (o : gmap string json) (rest : list json) (reason : string) :
  failure_reason o reason →
  ReSubscribeMixin.known_error (JList (JObj o :: rest))
    = Return (String.prefix "SERVER_UNAVAILABLE" reason).
Proof.
  intros (x & s & Hx & Hs & Hr).
  unfold ReSubscribeMixin.known_error. rewrite py_getitem_int_first.
  unfold py_get. rewrite Hx, Hs, Hr. reflexivity.
Qed.

Lemma finished_unsuccessful (o : gmap string json) (rest : list json) :
  unsuccessful o →
  ReSubscribeMixin.finished (JList (JObj o :: rest)) = Return false.
Proof.
  intros (ok & Hok & Hfalsy).
  unfold ReSubscribeMixin.finished. cbn [py_truthy negb].
  rewrite py_getitem_int_first. unfold py_getitem. rewrite Hok, Hfalsy.
  reflexivity.
Qed.

(** C3: with fuel for at least one turn, [subscribe] returns the response
    of the first inner call at once, on the state that call left, when the
    response is empty (falsy) or its first result is successful; when the
    first result is unsuccessful with failure reason [reason], it sleeps
    [retry_sub_duration] and goes on with a new inner call if [reason]
    starts with [SERVER_UNAVAILABLE], and returns the response at once if
    it does not. *)
Theorem resubscribe_subscribe_cases
    (retry_sub_duration : Q) (super_subscribe : string → M json)
    (fuel : nat) (channel : string) (w : world) (response : json) (w1 : world) :
  super_subscribe channel w = (Return response, w1) →
  let subscribe := ReSubscribeMixin.subscribe retry_sub_duration super_subscribe in
  (py_truthy response = false → subscribe (S fuel) channel w = (Return (Some response), w1))
  ∧ (∀ o rest ok,
       response = JList (JObj o :: rest) →
       o !! "successful" = Some ok → py_truthy ok = true →
       subscribe (S fuel) channel w = (Return (Some response), w1))
  ∧ (∀ o rest reason,
       response = JList (JObj o :: rest) →
       unsuccessful o → failure_reason o reason →
       subscribe (S fuel) channel w =
         if String.prefix "SERVER_UNAVAILABLE" reason
         then subscribe fuel channel (add_event (ESleep retry_sub_duration) w1)
         else (Return (Some response), w1)).
Proof.
  intros Hsub subscribe. unfold subscribe.
  split; [|split].
  - intros Hfalsy. cbn [ReSubscribeMixin.subscribe]. unfold bind at 1.
    rewrite Hsub. unfold bind, lift, ReSubscribeMixin.finished.
    rewrite Hfalsy. reflexivity.
  - intros o rest ok -> Hok Htruthy.
    cbn [ReSubscribeMixin.subscribe]. unfold bind at 1.
    rewrite Hsub. unfold bind, lift, ReSubscribeMixin.finished.
    cbn [py_truthy negb]. rewrite py_getitem_int_first.
    unfold py_getitem. rewrite Hok, Htruthy. reflexivity.
  - intros o rest reason -> Hfail Hreason.
    cbn [ReSubscribeMixin.subscribe]. unfold bind at 1.
    rewrite Hsub. unfold bind at 1, lift at 1.
    rewrite (finished_unsuccessful _ _ Hfail).
    unfold bind at 1, lift at 1.
    rewrite (known_error_reason _ _ _ Hreason).
    destruct (String.prefix "SERVER_UNAVAILABLE" reason); reflexivity.
Qed.

Lemma resubscribe_subscribe_cases_witness :
  ReSubscribeMixin.subscribe (1 # 10) Samples.base_subscribe 1 "/topic/X" Samples.w0
    = (Return (Some Samples.ok_response),
       add_event (ECall "subscribe" "/topic/X") Samples.w0)
  ∧ ReSubscribeMixin.subscribe (1 # 10) Samples.denied_subscribe 1 "/topic/X" Samples.w0
    = (Return (Some (Samples.failed_response "DENIED")),
       add_event (ECall "subscribe" "/topic/X") Samples.w0)
  ∧ ReSubscribeMixin.subscribe (1 # 10) Samples.busy_subscribe 1 "/topic/X" Samples.w0
    = ReSubscribeMixin.subscribe (1 # 10) Samples.busy_subscribe 0 "/topic/X"
        (add_event (ESleep (1 # 10))
           (add_event (ECall "subscribe" "/topic/X") Samples.w0)).
Proof.
  split; [|split].
  - refine (proj1 (proj2 (resubscribe_subscribe_cases (1 # 10) Samples.base_subscribe
              0 "/topic/X" Samples.w0 Samples.ok_response _ _))
              {["successful" := JBool true]} [] (JBool true) _ _ _); reflexivity.
  - refine (proj2 (proj2 (resubscribe_subscribe_cases (1 # 10) Samples.denied_subscribe
              0 "/topic/X" Samples.w0 (Samples.failed_response "DENIED") _ _))
              _ [] "DENIED" eq_refl _ _).
    + reflexivity.
    + exists (JBool false). split; reflexivity.
    + exists {["sfdc" := JObj {["failureReason" := JStr "DENIED"]}]},
        {["failureReason" := JStr "DENIED"]}. repeat split; reflexivity.
  - refine (proj2 (proj2 (resubscribe_subscribe_cases (1 # 10) Samples.busy_subscribe
              0 "/topic/X" Samples.w0
              (Samples.failed_response "SERVER_UNAVAILABLE - limit") _ _))
              _ [] "SERVER_UNAVAILABLE - limit" eq_refl _ _).
    + reflexivity.
    + exists (JBool false). split; reflexivity.
    + exists {["sfdc" := JObj {["failureReason" := JStr "SERVER_UNAVAILABLE - limit"]}]},
        {["failureReason" := JStr "SERVER_UNAVAILABLE - limit"]}.
      repeat split; reflexivity.
Defined.

(** C8: when every response of the inner [subscribe] for the channel has
    an unsuccessful first result whose failure reason starts with
    [SERVER_UNAVAILABLE], [subscribe] never returns: whatever the number
    of turns granted, the loop uses them all, each turn being one inner
    call followed by one sleep of [retry_sub_duration], the same at every
    turn. *)
Theorem resubscribe_retries_forever
    (retry_sub_duration : Q) (super_subscribe : string → M json) (channel : string) :
  (∀ w, ∃ response w', super_subscribe channel w = (Return response, w')
                       ∧ server_unavailable response) →
  ∀ (fuel : nat) (w : world),
    ReSubscribeMixin.subscribe retry_sub_duration super_subscribe fuel channel w
      = (Return None,
         Nat.iter fuel (retry_turn retry_sub_duration super_subscribe channel) w)
    ∧ ∀ response,
        (ReSubscribeMixin.subscribe retry_sub_duration super_subscribe fuel channel w).1
          ≠ Return (Some response).
Proof.
  intros Hbusy fuel.
  assert (Hrun : ∀ w,
    ReSubscribeMixin.subscribe retry_sub_duration super_subscribe fuel channel w
      = (Return None,
         Nat.iter fuel (retry_turn retry_sub_duration super_subscribe channel) w)).
  { induction fuel as [|fuel IH]; intros w.
    - reflexivity.
    - destruct (Hbusy w) as (response & w' & Hsub & o & rest & reason & -> & Hfail & Hreason & Hprefix).
      cbn [ReSubscribeMixin.subscribe]. unfold bind at 1. rewrite Hsub.
      unfold bind at 1, lift at 1. rewrite (finished_unsuccessful _ _ Hfail).
      unfold bind at 1, lift at 1. rewrite (known_error_reason _ _ _ Hreason).
      rewrite Hprefix. cbn [negb]. unfold bind, sleep, modify.
      rewrite IH. rewrite Nat.iter_succ_r.
      replace (retry_turn retry_sub_duration super_subscribe channel w)
        with (add_event (ESleep retry_sub_duration) w')
        by (unfold retry_turn; rewrite Hsub; reflexivity).
      reflexivity. }
  intros w. split; [apply Hrun|].
  intros response. rewrite Hrun. discriminate.
Qed.

Lemma resubscribe_retries_forever_witness :
  ReSubscribeMixin.subscribe (1 # 10) Samples.busy_subscribe 3 "/topic/X" Samples.w0
    = (Return None,
       Nat.iter 3 (retry_turn (1 # 10) Samples.busy_subscribe "/topic/X") Samples.w0).
Proof.
  refine (proj1 (resubscribe_retries_forever (1 # 10) Samples.busy_subscribe "/topic/X"
                   _ 3%nat Samples.w0)).
  intros w. exists (Samples.failed_response "SERVER_UNAVAILABLE - limit"), (add_event (ECall "subscribe" "/topic/X") w).
  split; [reflexivity|].
  exists (<["successful" := JBool false]>
            {["ext" := JObj {["sfdc" := JObj {["failureReason" := JStr "SERVER_UNAVAILABLE - limit"]}]}]}),
    [], "SERVER_UNAVAILABLE - limit".
  split; [reflexivity|]. split; [|split; [|reflexivity]].
  - exists (JBool false). split; reflexivity.
  - exists {["sfdc" := JObj {["failureReason" := JStr "SERVER_UNAVAILABLE - limit"]}]},
      {["failureReason" := JStr "SERVER_UNAVAILABLE - limit"]}.
    repeat split; reflexivity.
Defined.

(** ** Further properties of the layers *)

Lemma add_tasks_nil (w : world) : add_tasks [] w = w.
Proof. destruct w. unfold add_tasks. cbn. rewrite app_nil_r. reflexivity. Qed.

Lemma add_tasks_add_tasks (ts us : list task) (w : world) :
  add_tasks us (add_tasks ts w) = add_tasks (ts ++ us) w.
Proof. unfold add_tasks. cbn. rewrite app_assoc. reflexivity. Qed.

Lemma is_object_false_inv (v : json) :
  is_object v = false → ∀ o, v ≠ JObj o.
Proof. intros H o ->. discriminate. Qed.

(** *** ReplayMixin: the handshake payload *)

(** X1: on an inner handshake payload that is an object whose [ext] is
    absent or an object, [get_handshake_payload] returns an object whose
    [ext.replay] is [True]; every other key of the payload and every other
    key of its [ext] is as the inner chain gave it. *)
Theorem get_handshake_payload_enables_replay
    (super_get_handshake_payload : M json) (w : world)
    (p : gmap string json) (w1 : world) :
  super_get_handshake_payload w = (Return (JObj p), w1) →
  (p !! "ext" = None ∨ ∃ e, p !! "ext" = Some (JObj e)) →
  ∃ p' e',
    ReplayMixin.get_handshake_payload super_get_handshake_payload w
      = (Return (JObj p'), w1)
    ∧ p' !! "ext" = Some (JObj e')
    ∧ e' !! "replay" = Some (JBool true)
    ∧ (∀ k, k ≠ "ext" → p' !! k = p !! k)
    ∧ (∀ k, k ≠ "replay" →
         e' !! k = match p !! "ext" with
                   | Some (JObj e) => e !! k
                   | _ => None
                   end).
Proof.
  intros Hsuper Hext.
  unfold ReplayMixin.get_handshake_payload, bind at 1. rewrite Hsuper.
  unfold bind, lift, py_setdefault.
  destruct Hext as [Hnone | (e & He)].
  - rewrite Hnone. cbn [fst snd py_setitem].
    eexists _, _. split; [reflexivity|].
    split; [apply lookup_insert_eq|]. split; [apply lookup_insert_eq|].
    split.
    + intros k Hk. rewrite !lookup_insert_ne by congruence. reflexivity.
    + intros k Hk. rewrite lookup_insert_ne by congruence. apply lookup_empty.
  - rewrite He. cbn [fst snd py_setitem].
    eexists _, _. split; [reflexivity|].
    split; [apply lookup_insert_eq|]. split; [apply lookup_insert_eq|].
    split.
    + intros k Hk. rewrite lookup_insert_ne by congruence. reflexivity.
    + intros k Hk. rewrite lookup_insert_ne by congruence. reflexivity.
Qed.

Lemma get_handshake_payload_enables_replay_witness :
  ∃ p' e',
    ReplayMixin.get_handshake_payload (ret Scenarios.handshake_payload) Samples.w0
      = (Return (JObj p'), Samples.w0)
    ∧ p' !! "ext" = Some (JObj e')
    ∧ e' !! "replay" = Some (JBool true)
    ∧ p' !! "channel" = Some (JStr "/meta/handshake")
    ∧ e' !! "custom" = Some (JInt 7).
Proof.
  destruct (get_handshake_payload_enables_replay
              (ret Scenarios.handshake_payload) Samples.w0 _ Samples.w0 eq_refl
              (or_intror (ex_intro _ {["custom" := JInt 7]} eq_refl)))
    as (p' & e' & Hrun & Hext & Hreplay & Hp & He).
  exists p', e'. split; [exact Hrun|]. split; [exact Hext|].
  split; [exact Hreplay|]. split.
  - rewrite Hp by discriminate. reflexivity.
  - rewrite He by discriminate. reflexivity.
Defined.

(** X2: when the inner handshake payload is not an object, or has an
    [ext] that is not an object, [get_handshake_payload] raises
    [AttributeError] on the state the inner call left. *)
Theorem get_handshake_payload_bad_ext
    (super_get_handshake_payload : M json) (w : world)
    (payload : json) (w1 : world) :
  super_get_handshake_payload w = (Return payload, w1) →
  (is_object payload = false
   ∨ ∃ p v, payload = JObj p ∧ p !! "ext" = Some v ∧ is_object v = false) →
  ReplayMixin.get_handshake_payload super_get_handshake_payload w
    = (Raise AttributeError, w1).
Proof.
  intros Hsuper Hbad.
  unfold ReplayMixin.get_handshake_payload, bind at 1. rewrite Hsuper.
  unfold bind, lift, py_setdefault.
  destruct Hbad as [Hno | (p & v & -> & Hv & Hno)].
  - destruct payload; try reflexivity. discriminate.
  - rewrite Hv. cbn [fst snd]. destruct v; try reflexivity. discriminate.
Qed.

Lemma get_handshake_payload_bad_ext_witness :
  ReplayMixin.get_handshake_payload
    (ret (JObj {["ext" := JNull]})) Samples.w0
  = (Raise AttributeError, Samples.w0).
Proof.
  apply (get_handshake_payload_bad_ext _ Samples.w0 (JObj {["ext" := JNull]})).
  - reflexivity.
  - right. exists {["ext" := JNull]}, JNull. repeat split; reflexivity.
Defined.

(** *** ReplayMixin: the subscribe payload *)

(** X3: on an inner subscribe payload that the extension can be added to,
    [get_subscribe_payload] changes nothing but
    [ext.replay[channel]]: every other key of the payload, every other key
    of its [ext] and the replay entry of every other channel are as the
    inner chain gave them. *)
Theorem get_subscribe_payload_keeps_rest
    (super_get_subscribe_payload : string → M json)
    (get_last_replay_id : string → M last_replay_id)
    (channel : string) (w : world) (p : gmap string json) (w1 : world)
    (a : last_replay_id) (w2 : world) :
  super_get_subscribe_payload channel w = (Return (JObj p), w1) →
  replay_ext_ok (JObj p) = true →
  get_last_replay_id channel w1 = (Return a, w2) →
  ∃ p' e' r',
    ReplayMixin.get_subscribe_payload super_get_subscribe_payload
      get_last_replay_id channel w = (Return (JObj p'), w2)
    ∧ p' !! "ext" = Some (JObj e')
    ∧ e' !! "replay" = Some (JObj r')
    ∧ (∀ k, k ≠ "ext" → p' !! k = p !! k)
    ∧ (∀ k, k ≠ "replay" →
         e' !! k = match p !! "ext" with
                   | Some (JObj e) => e !! k
                   | _ => None
                   end)
    ∧ (∀ c, c ≠ channel → r' !! c = sent_replay (JObj p) c).
Proof.
  intros Hp Hok Ha.
  unfold ReplayMixin.get_subscribe_payload, bind. rewrite Hp, Ha. cbv zeta.
  set (n := match a with NoReplayId => -1 | ReplayId n => if n =? 0 then -1 else n
            | Special t => ReplayType_value t end).
  replace (lift (py_int _) w2) with (@Return Z n, w2); cycle 1.
  { subst n. unfold lift. destruct a as [|k|t]; cbn; [reflexivity| |reflexivity].
    destruct (k =? 0); reflexivity. }
  clearbody n.
  unfold replay_ext_ok in Hok. unfold sent_replay.
  unfold lift, py_setdefault at 1.
  destruct (p !! "ext") as [[| | | | | |e]|] eqn:He; try discriminate.
  - cbn [fst snd]. unfold py_setdefault.
    destruct (e !! "replay") as [[| | | | | |r]|] eqn:Hr; try discriminate.
    + cbn [fst snd py_setitem]. eexists _, _, _. split; [reflexivity|].
      split; [apply lookup_insert_eq|]. split; [apply lookup_insert_eq|].
      split; [|split].
      * intros k Hk. rewrite lookup_insert_ne by congruence. reflexivity.
      * intros k Hk. rewrite lookup_insert_ne by congruence. reflexivity.
      * intros c Hc. rewrite lookup_insert_ne by congruence. reflexivity.
    + cbn [fst snd py_setitem]. eexists _, _, _. split; [reflexivity|].
      split; [apply lookup_insert_eq|]. split; [apply lookup_insert_eq|].
      split; [|split].
      * intros k Hk. rewrite lookup_insert_ne by congruence. reflexivity.
      * intros k Hk. rewrite !lookup_insert_ne by congruence. reflexivity.
      * intros c Hc. rewrite lookup_insert_ne by congruence. apply lookup_empty.
  - cbn [fst snd]. unfold py_setdefault. rewrite lookup_empty.
    cbn [fst snd py_setitem]. eexists _, _, _. split; [reflexivity|].
    split; [apply lookup_insert_eq|]. split; [apply lookup_insert_eq|].
    split; [|split].
    + intros k Hk. rewrite !lookup_insert_ne by congruence. reflexivity.
    + intros k Hk. rewrite !lookup_insert_ne by congruence. apply lookup_empty.
    + intros c Hc. rewrite lookup_insert_ne by congruence. apply lookup_empty.
Qed.

Lemma get_subscribe_payload_keeps_rest_witness :
  ∃ p' e' r',
    ReplayMixin.get_subscribe_payload
      (λ _, ret Scenarios.subscribe_payload_with_replay)
      (Samples.stored (ReplayId 1234)) "/topic/X" Samples.w0
      = (Return (JObj p'), Samples.w0)
    ∧ p' !! "ext" = Some (JObj e')
    ∧ e' !! "replay" = Some (JObj r')
    ∧ p' !! "subscription" = Some (JStr "/topic/X")
    ∧ e' !! "custom" = Some (JInt 7)
    ∧ r' !! "/topic/Y" = Some (JInt 5).
Proof.
  destruct (get_subscribe_payload_keeps_rest
              (λ _, ret Scenarios.subscribe_payload_with_replay)
              (Samples.stored (ReplayId 1234)) "/topic/X" Samples.w0
              _ Samples.w0 (ReplayId 1234) Samples.w0
              eq_refl eq_refl eq_refl)
    as (p' & e' & r' & Hrun & Hext & Hreplay & Hp & He & Hr).
  exists p', e', r'. split; [exact Hrun|]. split; [exact Hext|].
  split; [exact Hreplay|]. split; [|split].
  - rewrite Hp by discriminate. reflexivity.
  - rewrite He by discriminate. reflexivity.
  - rewrite Hr by discriminate. reflexivity.
Defined.

(** X4: when the inner subscribe payload is not an object, or has an [ext]
    that is not an object, [get_subscribe_payload] raises
    [AttributeError]; when [ext.replay] is there and is not an object (the
    flag [True] of a handshake payload, for one) it raises [TypeError]. In
    both cases the store has been asked before. *)
Theorem get_subscribe_payload_bad_ext
    (super_get_subscribe_payload : string → M json)
    (get_last_replay_id : string → M last_replay_id)
    (channel : string) (w : world) (payload : json) (w1 : world)
    (a : last_replay_id) (w2 : world) :
  super_get_subscribe_payload channel w = (Return payload, w1) →
  get_last_replay_id channel w1 = (Return a, w2) →
  let run := ReplayMixin.get_subscribe_payload super_get_subscribe_payload
               get_last_replay_id channel w in
  ((is_object payload = false
    ∨ ∃ p v, payload = JObj p ∧ p !! "ext" = Some v ∧ is_object v = false) →
   run = (Raise AttributeError, w2))
  ∧ ((∃ p e v, payload = JObj p ∧ p !! "ext" = Some (JObj e)
               ∧ e !! "replay" = Some v ∧ is_object v = false) →
     run = (Raise TypeError, w2)).
Proof.
  intros Hp Ha run. unfold run.
  unfold ReplayMixin.get_subscribe_payload, bind. rewrite Hp, Ha. cbv zeta.
  set (n := match a with NoReplayId => -1 | ReplayId n => if n =? 0 then -1 else n
            | Special t => ReplayType_value t end).
  replace (lift (py_int _) w2) with (@Return Z n, w2); cycle 1.
  { subst n. unfold lift. destruct a as [|k|t]; cbn; [reflexivity| |reflexivity].
    destruct (k =? 0); reflexivity. }
  clearbody n. unfold lift.
  split.
  - unfold py_setdefault at 1. intros [Hno | (p & v & -> & Hv & Hno)].
    + destruct payload; try reflexivity. discriminate.
    + rewrite Hv. cbn [fst snd].
      destruct v; try reflexivity. discriminate.
  - intros (p & e & v & -> & He & Hv & Hno).
    unfold py_setdefault at 1. rewrite He. cbn [fst snd]. unfold py_setdefault.
    rewrite Hv. cbn [fst snd]. destruct v; try reflexivity. discriminate.
Qed.

Lemma get_subscribe_payload_bad_ext_witness :
  ReplayMixin.get_subscribe_payload
    (λ _, ret (JObj {["ext" := JObj {["replay" := JBool true]}]}))
    (Samples.stored (ReplayId 1234)) "/topic/X" Samples.w0
  = (Raise TypeError, Samples.w0).
Proof.
  refine (proj2 (get_subscribe_payload_bad_ext
                   (λ _, ret (JObj {["ext" := JObj {["replay" := JBool true]}]}))
                   (Samples.stored (ReplayId 1234)) "/topic/X" Samples.w0
                   _ Samples.w0 (ReplayId 1234) Samples.w0 eq_refl eq_refl) _).
  exists {["ext" := JObj {["replay" := JBool true]}]},
    {["replay" := JBool true]}, (JBool true).
  repeat split; reflexivity.
Defined.

(** *** Generators over a list of frames *)

Lemma async_for_all_yielded (body : json → M (option json))
    (frames : list json) (tss : list (list task)) (w : world) :
  Forall2 (λ m ts, ∀ w, body m w = (Return (Some m), add_tasks ts w)) frames tss →
  async_for body frames w = ((frames, None), add_tasks (concat tss) w).
Proof.
  intros H. revert w. induction H as [|m ts frames tss Hm _ IH]; intros w.
  - cbn. rewrite add_tasks_nil. reflexivity.
  - rewrite (async_for_yield _ _ _ _ _ _ (Hm w)). rewrite IH.
    cbn [fst snd concat]. rewrite add_tasks_add_tasks. reflexivity.
Qed.

Lemma async_for_stops (body : json → M (option json))
    (good : list json) (tss : list (list task)) (bad : json) (e : exn)
    (rest : list json) (w : world) :
  Forall2 (λ m ts, ∀ w, body m w = (Return (Some m), add_tasks ts w)) good tss →
  (∀ w, body bad w = (Raise e, w)) →
  async_for body (good ++ bad :: rest) w
    = ((good, Some e), add_tasks (concat tss) w).
Proof.
  intros H Hbad. revert w. induction H as [|m ts good tss Hm _ IH]; intros w.
  - cbn [app concat]. rewrite (async_for_raise _ _ _ _ _ _ (Hbad w)).
    rewrite add_tasks_nil. reflexivity.
  - cbn [app]. rewrite (async_for_yield _ _ _ _ _ _ (Hm w)). rewrite IH.
    cbn [fst snd concat]. rewrite add_tasks_add_tasks. reflexivity.
Qed.

(** *** ReplayMixin: the whole stream *)

Lemma replay_body_store_tasks (message : json) (ts : list task) (w : world) :
  store_tasks message = Some ts →
  ReplayMixin.messages_body message w = (Return (Some message), add_tasks ts w).
Proof.
  unfold store_tasks, ReplayMixin.messages_body, bind, lift, py_getitem,
    py_startswith.
  destruct message as [| | | | | |m]; try discriminate.
  destruct (m !! "channel") as [[| | | |ch| |]|]; try discriminate.
  destruct (String.prefix "/meta/" ch).
  - intros [= <-]. cbn. rewrite add_tasks_nil. reflexivity.
  - cbn [negb].
    destruct (m !! "data") as [[| | | | | |d]|]; try discriminate.
    destruct (d !! "event") as [[| | | | | |e]|]; try discriminate.
    destruct (e !! "replayId") as [r|]; try discriminate.
    destruct (e !! "createdDate") as [t|]; try discriminate.
    intros [= <-]. reflexivity.
Qed.

Lemma replay_body_raises (message : json) :
  store_tasks message = None →
  ∃ e, ∀ w, ReplayMixin.messages_body message w = (Raise e, w).
Proof.
  unfold store_tasks, ReplayMixin.messages_body, bind, lift, py_getitem,
    py_startswith.
  destruct message as [| | | | | |m]; try (intros _; eexists; intros w; reflexivity).
  destruct (m !! "channel") as [[| | | |ch| |]|];
    try (intros _; eexists; intros w; reflexivity).
  destruct (String.prefix "/meta/" ch); [discriminate|]. cbn [negb].
  destruct (m !! "data") as [[| | | | | |d]|];
    try (intros _; eexists; intros w; reflexivity).
  destruct (d !! "event") as [[| | | | | |e]|];
    try (intros _; eexists; intros w; reflexivity).
  destruct (e !! "replayId") as [r|];
    try (intros _; eexists; intros w; reflexivity).
  destruct (e !! "createdDate") as [t|];
    try (intros _; eexists; intros w; reflexivity).
  discriminate.
Qed.

(** X5: when every frame of the inner generator is a frame of a meta
    channel or a frame with [data.event.replayId] and
    [data.event.createdDate], [messages] yields all the frames, in order
    and unchanged, never raises, and leaves in the scheduled tasks one
    [store_replay_id] per frame of a channel that is not a meta channel,
    in the order of the frames. *)
Theorem replay_messages_whole_stream
    (frames : list json) (tss : list (list task)) (w : world) :
  Forall2 (λ m ts, store_tasks m = Some ts) frames tss →
  ReplayMixin.messages frames w = ((frames, None), add_tasks (concat tss) w).
Proof.
  intros H. unfold ReplayMixin.messages. apply async_for_all_yielded.
  eapply Forall2_impl; [exact H|]. intros m ts Hm w'.
  apply replay_body_store_tasks. exact Hm.
Qed.

Lemma replay_messages_whole_stream_witness :
  ReplayMixin.messages
    [Samples.data_frame "/topic/X" 77 "t1"; Samples.connect_frame 110000;
     Samples.data_frame "/topic/Y" 78 "t2"] Samples.w0
  = (([Samples.data_frame "/topic/X" 77 "t1"; Samples.connect_frame 110000;
       Samples.data_frame "/topic/Y" 78 "t2"], None),
     add_tasks [TStoreReplayId (JStr "/topic/X") (JInt 77) (JStr "t1");
                TStoreReplayId (JStr "/topic/Y") (JInt 78) (JStr "t2")]
       Samples.w0).
Proof.
  apply (replay_messages_whole_stream _
           [[TStoreReplayId (JStr "/topic/X") (JInt 77) (JStr "t1")]; [];
            [TStoreReplayId (JStr "/topic/Y") (JInt 78) (JStr "t2")]]).
  repeat constructor.
Defined.

(** X6: [messages] ends at the first frame that is neither a frame of a
    meta channel nor a frame with [data.event.replayId] and
    [data.event.createdDate]: the frames before it have been yielded and
    their tasks scheduled, the frame itself and the frames after it are
    never yielded, and no task is scheduled for them. *)
Theorem replay_messages_stops_at_first_bad_frame
    (good : list json) (tss : list (list task)) (bad : json)
    (rest : list json) (w : world) :
  Forall2 (λ m ts, store_tasks m = Some ts) good tss →
  store_tasks bad = None →
  ∃ e, ReplayMixin.messages (good ++ bad :: rest) w
       = ((good, Some e), add_tasks (concat tss) w).
Proof.
  intros Hgood Hbad.
  destruct (replay_body_raises bad Hbad) as [e He].
  exists e. unfold ReplayMixin.messages. apply async_for_stops; [|exact He].
  eapply Forall2_impl; [exact Hgood|]. intros m ts Hm w'.
  apply replay_body_store_tasks. exact Hm.
Qed.

Lemma replay_messages_stops_at_first_bad_frame_witness :
  ∃ e, ReplayMixin.messages
         ([Samples.data_frame "/topic/X" 77 "t1"]
            ++ JObj {["channel" := JStr "/topic/X"; "data" := JNull]}
            :: [Samples.data_frame "/topic/Y" 78 "t2"]) Samples.w0
       = (([Samples.data_frame "/topic/X" 77 "t1"], Some e),
          add_tasks (concat [[TStoreReplayId (JStr "/topic/X") (JInt 77) (JStr "t1")]])
            Samples.w0).
Proof.
  apply (replay_messages_stops_at_first_bad_frame
           [Samples.data_frame "/topic/X" 77 "t1"]
           [[TStoreReplayId (JStr "/topic/X") (JInt 77) (JStr "t1")]]).
  - repeat constructor.
  - reflexivity.
Defined.

(** *** TimeoutAdviceMixin *)

(** X7: whatever the frame, the loop body of [TimeoutAdviceMixin.messages]
    either yields the frame itself or raises on an unchanged state; it
    never swallows or alters a frame, and the only part of the state it
    can change is the session timeout. *)
Theorem timeout_advice_body_effects (message : json) (w : world) :
  let r := TimeoutAdviceMixin.messages_body message w in
  (r.1 = Return (Some message) ∧ (r.2 = w ∨ ∃ t, r.2 = set_timeout t w))
  ∨ (∃ e, r = (Raise e, w)).
Proof.
  unfold TimeoutAdviceMixin.messages_body, bind, lift, py_get, py_in, py_getitem.
  destruct message as [| | | | | |m]; try (right; eexists; reflexivity).
  destruct (py_eq_str _ "/meta/connect"); [|left; split; [reflexivity|left; reflexivity]].
  destruct (m !! "advice") as [advice|];
    [|left; split; [reflexivity|left; reflexivity]].
  destruct advice as [| | | | | |a]; try (right; eexists; reflexivity).
  destruct (py_truthy _); [|left; split; [reflexivity|left; reflexivity]].
  destruct (py_truediv _ 1000) as [t|e].
  - left. split; [reflexivity|]. right. exists t. reflexivity.
  - right. eexists. reflexivity.
Qed.

Lemma timeout_body_without_advice (message : json) (w : world) :
  no_timeout_advice message = true →
  TimeoutAdviceMixin.messages_body message w = (Return (Some message), w).
Proof.
  unfold no_timeout_advice, TimeoutAdviceMixin.messages_body, bind, lift,
    py_get, py_in, py_getitem.
  destruct message as [| | | | | |m]; try discriminate.
  replace (match m !! "channel" with Some x => x | None => JStr "" end)
    with (default (JStr "") (m !! "channel")) by (destruct (m !! "channel"); reflexivity).
  destruct (py_eq_str _ "/meta/connect"); [|reflexivity].
  destruct (m !! "advice") as [[| | | | | |a]|]; try discriminate; [|reflexivity].
  destruct (a !! "timeout") as [t|]; [|reflexivity].
  intros Ht. apply negb_true_iff in Ht. rewrite Ht. reflexivity.
Qed.

(** X8: when no frame of the inner generator carries a timeout advice
    (each is an object that is not on [/meta/connect], or has no [advice],
    or an [advice] object with no truthy [timeout]; a frame without
    [channel] is one of them), [TimeoutAdviceMixin.messages] yields all
    the frames in order and leaves the state as it was. *)
Theorem timeout_messages_passes_frames (frames : list json) (w : world) :
  Forall (λ m, no_timeout_advice m = true) frames →
  TimeoutAdviceMixin.messages frames w = ((frames, None), w).
Proof.
  intros H. unfold TimeoutAdviceMixin.messages.
  rewrite (async_for_all_yielded _ frames (replicate (length frames) [])).
  - replace (concat (replicate (length frames) ([] : list task))) with ([] : list task).
    + rewrite add_tasks_nil. reflexivity.
    + induction frames; [reflexivity | cbn; apply IHframes; inversion H; assumption].
  - induction H as [|m frames Hm _ IH]; constructor; [|exact IH].
    intros w'. rewrite add_tasks_nil. apply timeout_body_without_advice. exact Hm.
Qed.

Lemma timeout_messages_passes_frames_witness :
  TimeoutAdviceMixin.messages
    [Samples.data_frame "/topic/X" 77 "t1"; JObj ∅; Samples.connect_frame 0]
    Samples.w0
  = (([Samples.data_frame "/topic/X" 77 "t1"; JObj ∅; Samples.connect_frame 0],
      None), Samples.w0).
Proof.
  apply timeout_messages_passes_frames. repeat constructor.
Defined.

(** X9: on a [/meta/connect] frame, an [advice] that is not an object
    makes the loop body raise [AttributeError], and an [advice.timeout]
    that is truthy and not a number makes it raise [TypeError]; the state
    is unchanged and [messages] ends there without yielding the frame. *)
Theorem timeout_advice_malformed
    (m : gmap string json) (rest : list json) (w : world) :
  m !! "channel" = Some (JStr "/meta/connect") →
  (∀ v, m !! "advice" = Some v → is_object v = false →
     TimeoutAdviceMixin.messages_body (JObj m) w = (Raise AttributeError, w)
     ∧ TimeoutAdviceMixin.messages (JObj m :: rest) w
       = (([], Some AttributeError), w))
  ∧ (∀ a t, m !! "advice" = Some (JObj a) → a !! "timeout" = Some t →
       py_truthy t = true → is_number t = false →
       TimeoutAdviceMixin.messages_body (JObj m) w = (Raise TypeError, w)
       ∧ TimeoutAdviceMixin.messages (JObj m :: rest) w
         = (([], Some TypeError), w)).
Proof.
  intros Hc. split.
  - intros v Hv Hno.
    assert (Hb : TimeoutAdviceMixin.messages_body (JObj m) w = (Raise AttributeError, w)).
    { unfold TimeoutAdviceMixin.messages_body, bind, lift, py_get, py_in, py_getitem.
      rewrite Hc, Hv. cbn [py_eq_str String.eqb Ascii.eqb Bool.eqb].
      destruct v; try reflexivity. discriminate. }
    split; [exact Hb|]. apply async_for_raise. exact Hb.
  - intros a t Ha Ht Htruthy Hnum.
    assert (Hb : TimeoutAdviceMixin.messages_body (JObj m) w = (Raise TypeError, w)).
    { unfold TimeoutAdviceMixin.messages_body, bind, lift, py_get, py_in, py_getitem.
      rewrite Hc, Ha. cbn [py_eq_str String.eqb Ascii.eqb Bool.eqb].
      rewrite Ht, Htruthy. destruct t; try discriminate; reflexivity. }
    split; [exact Hb|]. apply async_for_raise. exact Hb.
Qed.

Lemma timeout_advice_malformed_witness :
  TimeoutAdviceMixin.messages
    [JObj {["channel" := JStr "/meta/connect"; "advice" := JNull]};
     Samples.connect_frame 110000] Samples.w0
  = (([], Some AttributeError), Samples.w0).
Proof.
  refine (proj2 (proj1 (timeout_advice_malformed
            {["channel" := JStr "/meta/connect"; "advice" := JNull]}
            [Samples.connect_frame 110000] Samples.w0 _) JNull _ _));
    reflexivity.
Defined.

(** X10: a frame without a [channel] key makes the loop bodies of
    [ReplayMixin.messages] and of [AutoReconnectMixin.messages] raise
    [KeyError], on an unchanged state and before any handshake, while the
    loop body of [TimeoutAdviceMixin.messages] yields it. *)
Theorem frame_without_channel
    (self_handshake : M json) (m : gmap string json) (w : world) :
  m !! "channel" = None →
  ReplayMixin.messages_body (JObj m) w = (Raise (KeyError (JStr "channel")), w)
  ∧ AutoReconnectMixin.messages_body self_handshake (JObj m) w
    = (Raise (KeyError (JStr "channel")), w)
  ∧ TimeoutAdviceMixin.messages_body (JObj m) w = (Return (Some (JObj m)), w).
Proof.
  intros Hc. split; [|split].
  - unfold ReplayMixin.messages_body, bind, lift, py_getitem. rewrite Hc.
    reflexivity.
  - unfold AutoReconnectMixin.messages_body, bind, lift, py_getitem. rewrite Hc.
    reflexivity.
  - unfold TimeoutAdviceMixin.messages_body, bind, lift, py_get. rewrite Hc.
    reflexivity.
Qed.

Lemma frame_without_channel_witness :
  ReplayMixin.messages_body (JObj {["data" := JNull]}) Samples.w0
    = (Raise (KeyError (JStr "channel")), Samples.w0)
  ∧ AutoReconnectMixin.messages_body Samples.base_handshake
      (JObj {["data" := JNull]}) Samples.w0
    = (Raise (KeyError (JStr "channel")), Samples.w0)
  ∧ TimeoutAdviceMixin.messages_body (JObj {["data" := JNull]}) Samples.w0
    = (Return (Some (JObj {["data" := JNull]})), Samples.w0).
Proof.
  apply (frame_without_channel Samples.base_handshake {["data" := JNull]} Samples.w0).
  reflexivity.
Defined.

(** *** AutoReconnectMixin: the stream *)

Lemma reconnect_body_passes (self_handshake : M json) (message : json) (w : world) :
  has_channel message →
  asks_handshake message = false →
  AutoReconnectMixin.messages_body self_handshake message w
    = (Return (Some message), w).
Proof.
  intros (m & ch & -> & Hc). unfold asks_handshake. rewrite Hc.
  unfold AutoReconnectMixin.messages_body, bind, lift, py_getitem,
    py_startswith, py_get.
  rewrite Hc. destruct (String.prefix "/meta/" ch); [|reflexivity].
  destruct (m !! "error") as [[| | | |e| |]|]; try reflexivity.
  intros Hasks. rewrite andb_true_l in Hasks. cbn [py_eq_str].
  rewrite Hasks. reflexivity.
Qed.

Lemma reconnect_body_asks (self_handshake : M json) (message : json) (w : world) :
  has_channel message →
  asks_handshake message = true →
  AutoReconnectMixin.messages_body self_handshake message w
    = match self_handshake w with
      | (Return _, w') => (Return None, w')
      | (Raise e, w') => (Raise e, w')
      end.
Proof.
  intros (m & ch & -> & Hc). unfold asks_handshake. rewrite Hc.
  unfold AutoReconnectMixin.messages_body, bind, lift, py_getitem,
    py_startswith, py_get.
  rewrite Hc.
  destruct (m !! "error") as [[| | | |e| |]|]; try discriminate.
  destruct (String.prefix "/meta/" ch); [|discriminate].
  intros Hasks. rewrite andb_true_l in Hasks. cbn [py_eq_str].
  rewrite Hasks. cbn [ret].
  destruct (self_handshake w) as [[r|e'] w']; reflexivity.
Qed.

(** X11: when every frame of the inner generator has a string [channel]
    and every handshake completes (on the states that satisfy an invariant
    [P] the handshake keeps), the consumer of
    [AutoReconnectMixin.messages] receives, in order, exactly the frames
    that are not a meta frame with the error ["403::Unknown client"], and
    the generator does not raise. *)
Theorem reconnect_messages_filters
    (self_handshake : M json) (P : world → Prop)
    (frames : list json) (w : world) :
  Forall has_channel frames →
  (∀ w, P w → ∃ r w', self_handshake w = (Return r, w') ∧ P w') →
  P w →
  (AutoReconnectMixin.messages self_handshake frames w).1
    = (List.filter (λ m, negb (asks_handshake m)) frames, None).
Proof.
  intros Hch Hh. revert w.
  induction Hch as [|m frames Hm _ IH]; intros w Hw; [reflexivity|].
  unfold AutoReconnectMixin.messages in *. cbn [List.filter].
  destruct (asks_handshake m) eqn:Hasks; cbn [negb].
  - destruct (Hh w Hw) as (r & w' & Hrun & Hw').
    rewrite (async_for_continue _ _ _ _ w'); [apply IH; exact Hw'|].
    rewrite (reconnect_body_asks _ _ _ Hm Hasks), Hrun. reflexivity.
  - rewrite (async_for_yield _ _ _ _ _ _ (reconnect_body_passes _ _ w Hm Hasks)).
    cbn [fst snd]. rewrite (IH w Hw). reflexivity.
Qed.

Lemma reconnect_messages_filters_witness :
  (AutoReconnectMixin.messages
     (AutoReconnectMixin.handshake Samples.base_handshake)
     [Samples.data_frame "/topic/X" 77 "t1"; Samples.unknown_client_frame;
      Samples.connect_frame 110000] Samples.two_subscriptions).1
  = ([Samples.data_frame "/topic/X" 77 "t1"; Samples.connect_frame 110000], None).
Proof.
  apply (reconnect_messages_filters
           (AutoReconnectMixin.handshake Samples.base_handshake)
           (λ w, is_Some (_subchannels w))
           [Samples.data_frame "/topic/X" 77 "t1"; Samples.unknown_client_frame;
            Samples.connect_frame 110000]).
  - repeat constructor; eexists _, _; (split; [reflexivity|]); reflexivity.
  - intros w [s Hs]. eexists _, _. split.
    + apply (handshake_resubscribes Samples.base_handshake w Samples.ok_response
               (add_event (ECall "handshake" "") w) s); [reflexivity | exact Hs].
    + exists s. exact Hs.
  - eexists. reflexivity.
Defined.

(** X12: when no frame of the inner generator asks for a handshake (each
    has a string [channel] and is not a meta frame with the error
    ["403::Unknown client"]), [AutoReconnectMixin.messages] yields all the
    frames in order, never calls [handshake] and leaves the state as it
    was. *)
Theorem reconnect_messages_passes_frames
    (self_handshake : M json) (frames : list json) (w : world) :
  Forall (λ m, has_channel m ∧ asks_handshake m = false) frames →
  AutoReconnectMixin.messages self_handshake frames w = ((frames, None), w).
Proof.
  intros H. unfold AutoReconnectMixin.messages.
  induction H as [|m frames [Hm Hasks] _ IH]; [reflexivity|].
  rewrite (async_for_yield _ _ _ _ _ _ (reconnect_body_passes _ _ w Hm Hasks)).
  rewrite IH. reflexivity.
Qed.

Lemma reconnect_messages_passes_frames_witness :
  AutoReconnectMixin.messages Scenarios.failing_handshake
    [Samples.data_frame "/topic/X" 77 "t1"; Samples.connect_frame 110000]
    Samples.w0
  = (([Samples.data_frame "/topic/X" 77 "t1"; Samples.connect_frame 110000], None),
     Samples.w0).
Proof.
  apply reconnect_messages_passes_frames.
  repeat constructor; eexists _, _; (split; [reflexivity|]); reflexivity.
Defined.

(** X13: when the inner handshake raises, [handshake] raises the same
    exception and schedules no resubscription; a meta frame with the error
    ["403::Unknown client"] then ends [messages] with that exception, and
    the frames after it are never yielded. *)
Theorem reconnect_handshake_failure
    (super_handshake : M json) (m : gmap string json) (ch : string)
    (rest : list json) (w : world) (e : exn) (w1 : world) :
  m !! "channel" = Some (JStr ch) →
  String.prefix "/meta/" ch = true →
  m !! "error" = Some (JStr "403::Unknown client") →
  super_handshake w = (Raise e, w1) →
  AutoReconnectMixin.handshake super_handshake w = (Raise e, w1)
  ∧ AutoReconnectMixin.messages (AutoReconnectMixin.handshake super_handshake)
      (JObj m :: rest) w = (([], Some e), w1).
Proof.
  intros Hc Hmeta Herr Hh.
  assert (Hhs : AutoReconnectMixin.handshake super_handshake w = (Raise e, w1)).
  { unfold AutoReconnectMixin.handshake, bind. rewrite Hh. reflexivity. }
  split; [exact Hhs|].
  unfold AutoReconnectMixin.messages. apply async_for_raise.
  rewrite reconnect_body_asks.
  - rewrite Hhs. reflexivity.
  - exists m, ch. split; [reflexivity | exact Hc].
  - unfold asks_handshake. rewrite Hc, Herr, Hmeta. reflexivity.
Qed.

Lemma reconnect_handshake_failure_witness :
  AutoReconnectMixin.handshake Scenarios.failing_handshake Samples.two_subscriptions
    = (Raise (Raised "connection lost"),
       add_event (ECall "handshake" "") Samples.two_subscriptions)
  ∧ AutoReconnectMixin.messages
      (AutoReconnectMixin.handshake Scenarios.failing_handshake)
      (Samples.unknown_client_frame :: [Samples.data_frame "/topic/X" 77 "t1"])
      Samples.two_subscriptions
    = (([], Some (Raised "connection lost")),
       add_event (ECall "handshake" "") Samples.two_subscriptions).
Proof.
  apply (reconnect_handshake_failure Scenarios.failing_handshake _ "/meta/connect");
    reflexivity.
Defined.

(** *** AutoReconnectMixin: the subscription set *)

(** X14: on a client whose set of channels is [None] (before [start()] or
    after [stop()]), [subscribe] and [unsubscribe] raise [AttributeError]
    without calling the inner chain, and [handshake] raises [TypeError]
    after the inner handshake has completed. *)
Theorem reconnect_without_set
    (super_subscribe super_unsubscribe : string → M json)
    (super_handshake : M json) (channel : string) (w : world) :
  _subchannels w = None →
  AutoReconnectMixin.subscribe super_subscribe channel w = (Raise AttributeError, w)
  ∧ AutoReconnectMixin.unsubscribe super_unsubscribe channel w
    = (Raise AttributeError, w)
  ∧ ∀ r w1, super_handshake w = (Return r, w1) → _subchannels w1 = None →
      AutoReconnectMixin.handshake super_handshake w = (Raise TypeError, w1).
Proof.
  intros Hnone. split; [|split].
  - unfold AutoReconnectMixin.subscribe, bind, AutoReconnectMixin.subchannels_add.
    rewrite Hnone. reflexivity.
  - unfold AutoReconnectMixin.unsubscribe, bind,
      AutoReconnectMixin.subchannels_remove.
    rewrite Hnone. reflexivity.
  - intros r w1 Hh Hnone1.
    unfold AutoReconnectMixin.handshake, bind, AutoReconnectMixin.subchannels_iter.
    rewrite Hh, Hnone1. reflexivity.
Qed.

Lemma reconnect_without_set_witness :
  AutoReconnectMixin.subscribe Samples.base_subscribe "/topic/X" Scenarios.not_started
    = (Raise AttributeError, Scenarios.not_started)
  ∧ AutoReconnectMixin.unsubscribe Samples.base_unsubscribe "/topic/X"
      Scenarios.not_started
    = (Raise AttributeError, Scenarios.not_started)
  ∧ AutoReconnectMixin.handshake Samples.base_handshake Scenarios.not_started
    = (Raise TypeError, add_event (ECall "handshake" "") Scenarios.not_started).
Proof.
  destruct (reconnect_without_set Samples.base_subscribe Samples.base_unsubscribe
              Samples.base_handshake "/topic/X" Scenarios.not_started eq_refl)
    as (Hs & Hu & Hh).
  split; [exact Hs|]. split; [exact Hu|].
  apply (Hh Samples.ok_response); reflexivity.
Defined.

(** X15: [subscribe] records the channel before it delegates: whatever the
    outcome of the inner [subscribe] (a response, successful or not, or an
    exception), as long as the inner chain leaves the set alone the channel
    is in the set afterward, and the next completed [handshake] schedules
    its resubscription. *)
Theorem subscribe_records_channel
    (super_subscribe : string → M json) (super_handshake : M json)
    (channel : string) (s : gset string) (w : world)
    (o : outcome json) (w1 : world) :
  _subchannels w = Some s →
  super_subscribe channel (set_subchannels (Some ({[channel]} ∪ s)) w) = (o, w1) →
  _subchannels w1 = Some ({[channel]} ∪ s) →
  AutoReconnectMixin.subscribe super_subscribe channel w = (o, w1)
  ∧ ∀ r w2, super_handshake w1 = (Return r, w2) →
      _subchannels w2 = _subchannels w1 →
      TSuperSubscribe channel
        ∈ drop (length (tasks w2))
            (tasks (AutoReconnectMixin.handshake super_handshake w1).2).
Proof.
  intros Hs Hsub Hkeep. split.
  - unfold AutoReconnectMixin.subscribe, bind, AutoReconnectMixin.subchannels_add.
    rewrite Hs, Hsub. destruct o; reflexivity.
  - intros r w2 Hh Hsame. rewrite Hkeep in Hsame.
    rewrite (handshake_resubscribes _ _ _ _ _ Hh Hsame).
    cbn [snd]. unfold add_tasks. cbn [tasks]. rewrite drop_app_length.
    apply list_elem_of_fmap. exists channel. split; [reflexivity|].
    apply elem_of_elements. set_solver.
Qed.

Lemma subscribe_records_channel_witness :
  AutoReconnectMixin.subscribe Samples.denied_subscribe "/topic/X" Samples.w0
    = (Return (Samples.failed_response "DENIED"),
       add_event (ECall "subscribe" "/topic/X")
         (set_subchannels (Some ({["/topic/X"]} ∪ ∅)) Samples.w0)).
Proof.
  apply (subscribe_records_channel Samples.denied_subscribe Samples.base_handshake
           "/topic/X" ∅ Samples.w0); reflexivity.
Defined.

(** X16: [unsubscribe] of a channel of the set removes it before it
    delegates, and only it: the call goes on as the inner [unsubscribe] on
    the state without the channel, and the next completed [handshake]
    schedules a resubscription for every other channel of the set and none
    for the removed one. *)
Theorem unsubscribe_forgets_channel
    (super_unsubscribe : string → M json) (super_handshake : M json)
    (channel : string) (s : gset string) (w : world) :
  _subchannels w = Some s →
  channel ∈ s →
  AutoReconnectMixin.unsubscribe super_unsubscribe channel w
    = super_unsubscribe channel (set_subchannels (Some (s ∖ {[channel]})) w)
  ∧ ∀ w1 r w2,
      _subchannels w1 = Some (s ∖ {[channel]}) →
      super_handshake w1 = (Return r, w2) →
      _subchannels w2 = _subchannels w1 →
      ∀ c, TSuperSubscribe c
             ∈ drop (length (tasks w2))
                 (tasks (AutoReconnectMixin.handshake super_handshake w1).2)
           ↔ c ∈ s ∧ c ≠ channel.
Proof.
  intros Hs Hin. split.
  - unfold AutoReconnectMixin.unsubscribe, bind,
      AutoReconnectMixin.subchannels_remove.
    rewrite Hs. rewrite bool_decide_eq_true_2 by exact Hin.
    destruct (super_unsubscribe channel _) as [[r|e] w']; reflexivity.
  - intros w1 r w2 Hw1 Hh Hsame c. rewrite Hw1 in Hsame.
    rewrite (handshake_resubscribes _ _ _ _ _ Hh Hsame).
    cbn [snd]. unfold add_tasks. cbn [tasks]. rewrite drop_app_length.
    rewrite list_elem_of_fmap. split.
    + intros (c' & [= <-] & Hc). apply elem_of_elements in Hc. set_solver.
    + intros [Hc Hne]. exists c. split; [reflexivity|].
      apply elem_of_elements. set_solver.
Qed.

Lemma unsubscribe_forgets_channel_witness :
  AutoReconnectMixin.unsubscribe Samples.base_unsubscribe "/topic/X"
    Samples.two_subscriptions
  = Samples.base_unsubscribe "/topic/X"
      (set_subchannels (Some ({["/topic/X"; "/topic/Y"]} ∖ {["/topic/X"]}))
         Samples.two_subscriptions).
Proof.
  apply (unsubscribe_forgets_channel Samples.base_unsubscribe Samples.base_handshake
           "/topic/X" {["/topic/X"; "/topic/Y"]} Samples.two_subscriptions).
  - vm_compute. reflexivity.
  - set_solver.
Defined.

(** X17: a completed [handshake] schedules each channel of the set once:
    the tasks it adds have no duplicate and are as many as the channels,
    however many times a channel was subscribed. *)
Theorem handshake_resubscribes_once
    (super_handshake : M json) (w : world) (r : json) (w1 : world)
    (s : gset string) :
  super_handshake w = (Return r, w1) →
  _subchannels w1 = Some s →
  let new := drop (length (tasks w1))
               (tasks (AutoReconnectMixin.handshake super_handshake w).2) in
  NoDup new ∧ length new = size s.
Proof.
  intros Hh Hs new. unfold new.
  rewrite (handshake_resubscribes _ _ _ _ _ Hh Hs).
  cbn [snd]. unfold add_tasks. cbn [tasks]. rewrite drop_app_length.
  split.
  - apply NoDup_fmap_2; [|apply NoDup_elements]. intros a b [= ->]. reflexivity.
  - rewrite length_fmap. reflexivity.
Qed.

Lemma handshake_resubscribes_once_witness :
  let new := drop (length (tasks (add_event (ECall "handshake" "")
                                    Samples.two_subscriptions)))
               (tasks (AutoReconnectMixin.handshake Samples.base_handshake
                         Samples.two_subscriptions).2) in
  NoDup new ∧ length new = size ({["/topic/X"; "/topic/Y"]} : gset string).
Proof.
  apply (handshake_resubscribes_once Samples.base_handshake
           Samples.two_subscriptions Samples.ok_response).
  - reflexivity.
  - vm_compute. reflexivity.
Defined.

(** *** AutoVersionMixin: discovery failures that abort the handshake *)

(** X18: the discovery read is outside the [try]: when it raises,
    [handshake] raises the same exception. When it returns [None], a
    number or a boolean, or a sequence whose last entry is not an object,
    the lookup raises [TypeError], which is not caught. In both cases the
    session version is left as the read left it and the inner handshake is
    not called. *)
Theorem auto_version_discovery_aborts
    (get : string → M json) (super_handshake : M json) (w w1 : world) :
  (∀ e, get "/services/data/" w = (Raise e, w1) →
        AutoVersionMixin.handshake get super_handshake w = (Raise e, w1))
  ∧ (∀ data, get "/services/data/" w = (Return data, w1) →
       (data = JNull ∨ is_number data = true
        ∨ ∃ l x, data = JList l ∧ last l = Some x ∧ is_object x = false) →
       AutoVersionMixin.handshake get super_handshake w = (Raise TypeError, w1)).
Proof.
  split.
  - intros e Hget. unfold AutoVersionMixin.handshake, bind. rewrite Hget.
    reflexivity.
  - intros data Hget Hshape.
    unfold AutoVersionMixin.handshake, bind at 1. rewrite Hget.
    unfold bind at 1, try_pass, bind, lift.
    destruct Hshape as [-> | [Hnum | (l & x & -> & Hl & Hx)]].
    + reflexivity.
    + destruct data; try discriminate; reflexivity.
    + rewrite (py_getitem_int_last _ _ Hl).
      destruct x; try discriminate; reflexivity.
Qed.

Lemma auto_version_discovery_aborts_witness :
  AutoVersionMixin.handshake Scenarios.failing_get Samples.base_handshake Samples.w0
    = (Raise (Raised "connection lost"),
       add_event (ECall "get" "/services/data/") Samples.w0)
  ∧ AutoVersionMixin.handshake (Samples.discovery JNull) Samples.base_handshake
      Samples.w0
    = (Raise TypeError, add_event (ECall "get" "/services/data/") Samples.w0).
Proof.
  split.
  - apply (proj1 (auto_version_discovery_aborts Scenarios.failing_get
                    Samples.base_handshake Samples.w0 _)).
    reflexivity.
  - apply (proj2 (auto_version_discovery_aborts (Samples.discovery JNull)
                    Samples.base_handshake Samples.w0 _) JNull).
    + reflexivity.
    + left. reflexivity.
Defined.

(** *** ReSubscribeMixin: what the loop returns *)

Lemma settles_spec (response : json) :
  settles response →
  ReSubscribeMixin.finished response = Return true
  ∨ (ReSubscribeMixin.finished response = Return false
     ∧ ReSubscribeMixin.known_error response = Return false).
Proof.
  intros [Hfalsy | (o & rest & -> & [(ok & Hok & Htruthy) | [Hun Hreason]])].
  - left. unfold ReSubscribeMixin.finished. rewrite Hfalsy. reflexivity.
  - left. unfold ReSubscribeMixin.finished. cbn [py_truthy negb].
    rewrite py_getitem_int_first. unfold py_getitem. rewrite Hok, Htruthy.
    reflexivity.
  - right. split; [apply finished_unsuccessful; exact Hun|].
    destruct Hreason as [(reason & Hr & Hprefix) | Hnone].
    + rewrite (known_error_reason _ _ _ Hr), Hprefix. reflexivity.
    + unfold ReSubscribeMixin.known_error. rewrite py_getitem_int_first.
      unfold py_get.
      destruct Hnone as [Hx | (x & Hx & [Hs | (s & Hs & Hf)])].
      * rewrite Hx, !lookup_empty. reflexivity.
      * rewrite Hx, Hs, lookup_empty. reflexivity.
      * rewrite Hx, Hs, Hf. reflexivity.
Qed.

Lemma subscribe_turn_settles
    (retry_sub_duration : Q) (super_subscribe : string → M json)
    (fuel : nat) (channel : string) (w : world) (response : json) (w1 : world) :
  super_subscribe channel w = (Return response, w1) →
  settles response →
  ReSubscribeMixin.subscribe retry_sub_duration super_subscribe (S fuel) channel w
    = (Return (Some response), w1).
Proof.
  intros Hsub Hsettles. cbn [ReSubscribeMixin.subscribe]. unfold bind at 1.
  rewrite Hsub. unfold bind at 1, lift at 1.
  destruct (settles_spec _ Hsettles) as [Hfin | [Hfin Hknown]]; rewrite Hfin.
  - reflexivity.
  - unfold bind, lift. rewrite Hknown. reflexivity.
Qed.

Lemma subscribe_turn_retries
    (retry_sub_duration : Q) (super_subscribe : string → M json)
    (fuel : nat) (channel : string) (w : world) (response : json) (w1 : world) :
  super_subscribe channel w = (Return response, w1) →
  server_unavailable response →
  ReSubscribeMixin.subscribe retry_sub_duration super_subscribe (S fuel) channel w
    = ReSubscribeMixin.subscribe retry_sub_duration super_subscribe fuel channel
        (retry_turn retry_sub_duration super_subscribe channel w).
Proof.
  intros Hsub (o & rest & reason & -> & Hfail & Hreason & Hprefix).
  cbn [ReSubscribeMixin.subscribe]. unfold bind at 1. rewrite Hsub.
  unfold bind at 1, lift at 1. rewrite (finished_unsuccessful _ _ Hfail).
  unfold bind at 1, lift at 1. rewrite (known_error_reason _ _ _ Hreason).
  rewrite Hprefix. cbn [negb]. unfold bind, sleep, modify, retry_turn.
  rewrite Hsub. reflexivity.
Qed.

(** X19: when the inner [subscribe] answers [SERVER_UNAVAILABLE] [k] times
    and then gives a response on which the loop returns (a falsy one, a
    successful one, or an unsuccessful one with another failure reason or
    with none), [subscribe] returns that response after [k] sleeps of
    [retry_sub_duration] and [k + 1] inner calls, for every bound on the
    turns larger than [k]. *)
Theorem resubscribe_returns_after_retries
    (retry_sub_duration : Q) (super_subscribe : string → M json)
    (channel : string) (k fuel : nat) (w : world) (response : json) (w' : world) :
  let turn := retry_turn retry_sub_duration super_subscribe channel in
  (k < fuel)%nat →
  (∀ i, (i < k)%nat →
     ∃ r w1, super_subscribe channel (Nat.iter i turn w) = (Return r, w1)
             ∧ server_unavailable r) →
  super_subscribe channel (Nat.iter k turn w) = (Return response, w') →
  settles response →
  ReSubscribeMixin.subscribe retry_sub_duration super_subscribe fuel channel w
    = (Return (Some response), w').
Proof.
  intros turn. revert fuel w.
  induction k as [|k IH]; intros fuel w Hlt Hbusy Hlast Hsettles.
  - destruct fuel as [|fuel]; [lia|].
    apply subscribe_turn_settles; assumption.
  - destruct fuel as [|fuel]; [lia|].
    destruct (Hbusy 0%nat ltac:(lia)) as (r & w1 & Hsub & Hr).
    rewrite (subscribe_turn_retries _ _ _ _ _ _ _ Hsub Hr).
    apply IH.
    + lia.
    + intros i Hi. destruct (Hbusy (S i) ltac:(lia)) as (r' & w1' & Hsub' & Hr').
      exists r', w1'. split; [|exact Hr'].
      rewrite <- Hsub'. rewrite Nat.iter_succ_r. reflexivity.
    + rewrite <- Hlast. rewrite Nat.iter_succ_r. reflexivity.
    + exact Hsettles.
Qed.

Lemma busy_response_unavailable :
  server_unavailable (Samples.failed_response "SERVER_UNAVAILABLE - limit").
Proof.
  exists (<["successful" := JBool false]>
            {["ext" := JObj {["sfdc" := JObj {["failureReason" :=
                               JStr "SERVER_UNAVAILABLE - limit"]}]}]}),
    [], "SERVER_UNAVAILABLE - limit".
  split; [reflexivity|]. split; [|split; [|reflexivity]].
  - exists (JBool false). split; reflexivity.
  - exists {["sfdc" := JObj {["failureReason" := JStr "SERVER_UNAVAILABLE - limit"]}]},
      {["failureReason" := JStr "SERVER_UNAVAILABLE - limit"]}.
    repeat split; reflexivity.
Defined.

Lemma resubscribe_returns_after_retries_witness :
  ReSubscribeMixin.subscribe (1 # 10) (Scenarios.eventually_subscribe 2) 5
    "/topic/X" Samples.w0
  = (Return (Some Samples.ok_response),
     add_event (ECall "subscribe" "/topic/X")
       (Nat.iter 2 (retry_turn (1 # 10) (Scenarios.eventually_subscribe 2) "/topic/X")
          Samples.w0)).
Proof.
  apply (resubscribe_returns_after_retries (1 # 10) (Scenarios.eventually_subscribe 2)
           "/topic/X" 2 5 Samples.w0).
  - lia.
  - intros i Hi. destruct i as [|[|i]]; [| |lia].
    + eexists _, _. split; [reflexivity|]. exact busy_response_unavailable.
    + eexists _, _. split; [reflexivity|]. exact busy_response_unavailable.
  - reflexivity.
  - right. exists {["successful" := JBool true]}, []. split; [reflexivity|].
    left. exists (JBool true). split; reflexivity.
Defined.

(** X20: [subscribe] never hands a [SERVER_UNAVAILABLE] response to its
    caller: whatever the inner chain does and whatever the bound on the
    turns, a response it returns is not one whose first result is
    unsuccessful with a failure reason starting with
    [SERVER_UNAVAILABLE]. *)
Theorem resubscribe_never_returns_unavailable
    (retry_sub_duration : Q) (super_subscribe : string → M json)
    (channel : string) (fuel : nat) (w : world) (response : json) (w' : world) :
  ReSubscribeMixin.subscribe retry_sub_duration super_subscribe fuel channel w
    = (Return (Some response), w') →
  ¬ server_unavailable response.
Proof.
  revert w. induction fuel as [|fuel IH]; intros w Hrun Hbusy.
  - discriminate.
  - cbn [ReSubscribeMixin.subscribe] in Hrun. unfold bind at 1 in Hrun.
    destruct (super_subscribe channel w) as [[r|e] w1]; [|discriminate].
    unfold bind at 1, lift at 1 in Hrun.
    destruct (ReSubscribeMixin.finished r) as [[|]|e] eqn:Hfin;
      [| |discriminate].
    + injection Hrun as <- <-.
      destruct Hbusy as (o & rest & reason & -> & Hfail & _).
      rewrite (finished_unsuccessful _ _ Hfail) in Hfin. discriminate.
    + unfold bind at 1, lift at 1 in Hrun.
      destruct (ReSubscribeMixin.known_error r) as [[|]|e] eqn:Hknown;
        [| |discriminate].
      * cbn [negb] in Hrun. unfold bind, sleep, modify in Hrun.
        exact (IH _ Hrun Hbusy).
      * injection Hrun as <- <-.
        destruct Hbusy as (o & rest & reason & -> & _ & Hreason & Hprefix).
        rewrite (known_error_reason _ _ _ Hreason), Hprefix in Hknown.
        discriminate.
Qed.

Lemma resubscribe_never_returns_unavailable_witness :
  ¬ server_unavailable Samples.ok_response.
Proof.
  apply (resubscribe_never_returns_unavailable (1 # 10)
           (Scenarios.eventually_subscribe 2) "/topic/X" 5 Samples.w0
           Samples.ok_response
           (add_event (ECall "subscribe" "/topic/X")
              (Nat.iter 2 (retry_turn (1 # 10) (Scenarios.eventually_subscribe 2)
                             "/topic/X") Samples.w0))).
  vm_compute. reflexivity.
Defined.

(** X21: exceptions leave the loop at once, without a retry: one raised by
    the inner [subscribe]; [KeyError] when the first result of a non-empty
    response has no [successful] field; [AttributeError] when the first
    result is unsuccessful and its [ext] is not an object. *)
Theorem resubscribe_raises
    (retry_sub_duration : Q) (super_subscribe : string → M json)
    (fuel : nat) (channel : string) (w w1 : world) :
  let subscribe := ReSubscribeMixin.subscribe retry_sub_duration super_subscribe in
  (∀ e, super_subscribe channel w = (Raise e, w1) →
        subscribe (S fuel) channel w = (Raise e, w1))
  ∧ (∀ o rest, super_subscribe channel w = (Return (JList (JObj o :: rest)), w1) →
       o !! "successful" = None →
       subscribe (S fuel) channel w = (Raise (KeyError (JStr "successful")), w1))
  ∧ (∀ o rest v, super_subscribe channel w = (Return (JList (JObj o :: rest)), w1) →
       unsuccessful o → o !! "ext" = Some v → is_object v = false →
       subscribe (S fuel) channel w = (Raise AttributeError, w1)).
Proof.
  intros subscribe. unfold subscribe. split; [|split].
  - intros e Hsub. cbn [ReSubscribeMixin.subscribe]. unfold bind.
    rewrite Hsub. reflexivity.
  - intros o rest Hsub Hnone. cbn [ReSubscribeMixin.subscribe].
    unfold bind at 1. rewrite Hsub. unfold bind, lift, ReSubscribeMixin.finished.
    cbn [py_truthy negb]. rewrite py_getitem_int_first.
    unfold py_getitem. rewrite Hnone. reflexivity.
  - intros o rest v Hsub Hfail Hv Hno. cbn [ReSubscribeMixin.subscribe].
    unfold bind at 1. rewrite Hsub. unfold bind at 1, lift at 1.
    rewrite (finished_unsuccessful _ _ Hfail).
    unfold bind, lift, ReSubscribeMixin.known_error.
    rewrite py_getitem_int_first. unfold py_get at 1. rewrite Hv.
    unfold py_get at 1. destruct v; try discriminate; reflexivity.
Qed.

Lemma resubscribe_raises_witness :
  ReSubscribeMixin.subscribe (1 # 10)
    (λ channel, Samples.called "subscribe" channel (JList [JObj ∅]))
    1 "/topic/X" Samples.w0
  = (Raise (KeyError (JStr "successful")),
     add_event (ECall "subscribe" "/topic/X") Samples.w0).
Proof.
  apply (proj1 (proj2 (resubscribe_raises (1 # 10)
                  (λ channel, Samples.called "subscribe" channel (JList [JObj ∅]))
                  0 "/topic/X" Samples.w0 _)) ∅ []);
    reflexivity.
Defined.

(** *** AllMixin: the layers together *)

Lemma auto_version_handshake_eq
    (get : string → M json) (super_handshake : M json)
    (w : world) (data : json) (w1 : world) (found : option json) :
  get "/services/data/" w = (Return data, w1) →
  discovered data found →
  AutoVersionMixin.handshake get super_handshake w =
    super_handshake match found with
                    | Some v => set_version v w1
                    | None => w1
                    end.
Proof.
  intros Hget Hd.
  unfold AutoVersionMixin.handshake, bind at 1. rewrite Hget.
  unfold bind at 1, try_pass, bind, lift.
  destruct Hd as [l d v Hl Hv | | l d Hl Hv | m];
    try reflexivity;
    rewrite (py_getitem_int_last _ _ Hl); unfold py_getitem; rewrite Hv;
    reflexivity.
Qed.


(** X22: in a client built with [AllMixin], a meta frame with the error
    ["403::Unknown client"] is swallowed by the reconnect layer before the
    replay and timeout layers see it: the version is discovered again, the
    inner handshake is run, one resubscription is scheduled per channel of
    the set, and nothing else changes; no [store_replay_id] is scheduled
    and the session timeout is not touched, even when the frame carries a
    timeout advice. *)
Theorem all_mixin_reconnects
    (get : string → M json) (base_handshake : M json)
    (m : gmap string json) (ch : string) (rest : list json)
    (w : world) (data : json) (w1 : world) (found : option json)
    (r : json) (w2 : world) (s : gset string) :
  m !! "channel" = Some (JStr ch) →
  String.prefix "/meta/" ch = true →
  m !! "error" = Some (JStr "403::Unknown client") →
  get "/services/data/" w = (Return data, w1) →
  discovered data found →
  base_handshake match found with Some v => set_version v w1 | None => w1 end
    = (Return r, w2) →
  _subchannels w2 = Some s →
  let w3 := add_tasks (TSuperSubscribe <$> elements s) w2 in
  AllMixin.messages_body get base_handshake (JObj m) w = (Return None, w3)
  ∧ AllMixin.messages get base_handshake (JObj m :: rest) w
    = AllMixin.messages get base_handshake rest w3
  ∧ timeout w3 = timeout w2.
Proof.
  intros Hc Hmeta Herr Hget Hd Hh Hs w3.
  assert (Hhs : AllMixin.handshake get base_handshake w = (Return r, w3)).
  { unfold AllMixin.handshake.
    rewrite (auto_version_handshake_eq get _ w data w1 found Hget Hd).
    apply handshake_resubscribes; assumption. }
  assert (Hb : AllMixin.messages_body get base_handshake (JObj m) w
               = (Return None, w3)).
  { unfold AllMixin.messages_body, through, bind at 1 2.
    rewrite reconnect_body_asks.
    - rewrite Hhs. reflexivity.
    - exists m, ch. split; [reflexivity | exact Hc].
    - unfold asks_handshake. rewrite Hc, Herr, Hmeta. reflexivity. }
  split; [exact Hb|]. split; [|reflexivity].
  unfold AllMixin.messages. apply async_for_continue. exact Hb.
Qed.

Lemma all_mixin_reconnects_witness :
  AllMixin.messages_body (Samples.discovery Samples.two_versions)
    Samples.base_handshake Scenarios.unknown_client_with_advice
    Samples.two_subscriptions
  = (Return None,
     add_tasks (TSuperSubscribe <$> elements ({["/topic/X"; "/topic/Y"]} : gset string))
       (add_event (ECall "handshake" "")
          (set_version (JStr "42.0")
             (add_event (ECall "get" "/services/data/") Samples.two_subscriptions)))).
Proof.
  refine (proj1 (all_mixin_reconnects (Samples.discovery Samples.two_versions)
            Samples.base_handshake _ "/meta/connect" [] Samples.two_subscriptions
            Samples.two_versions _ (Some (JStr "42.0")) Samples.ok_response _
            {["/topic/X"; "/topic/Y"]} _ _ _ _ _ _ _)).
  - reflexivity.
  - reflexivity.
  - reflexivity.
  - reflexivity.
  - apply (discovered_last _ {["version" := JStr "42.0"]}); reflexivity.
  - reflexivity.
  - vm_compute. reflexivity.
Defined.

(** X23: in a client built with [AllMixin], a frame with a string
    [channel] that does not ask for a handshake goes through the replay
    layer and then through the timeout layer: the tasks of the replay
    layer are scheduled first, and the frame is then handled as
    [TimeoutAdviceMixin] handles it; a frame the replay layer cannot read
    ends the stream before the timeout layer sees it. *)
Theorem all_mixin_passes_frame
    (get : string → M json) (base_handshake : M json)
    (message : json) (w : world) :
  has_channel message →
  asks_handshake message = false →
  (∀ ts, store_tasks message = Some ts →
     AllMixin.messages_body get base_handshake message w
       = TimeoutAdviceMixin.messages_body message (add_tasks ts w))
  ∧ (store_tasks message = None →
     ∃ e, ∀ rest, AllMixin.messages get base_handshake (message :: rest) w
                  = (([], Some e), w)).
Proof.
  intros Hch Hasks. split.
  - intros ts Hts. unfold AllMixin.messages_body, through, bind at 1 2.
    rewrite (reconnect_body_passes _ _ _ Hch Hasks).
    rewrite (replay_body_store_tasks _ _ _ Hts). reflexivity.
  - intros Hnone. destruct (replay_body_raises _ Hnone) as [e He].
    exists e. intros rest. unfold AllMixin.messages. apply async_for_raise.
    unfold AllMixin.messages_body, through, bind at 1 2.
    rewrite (reconnect_body_passes _ _ _ Hch Hasks). rewrite He. reflexivity.
Qed.

Lemma all_mixin_passes_frame_witness :
  AllMixin.messages_body (Samples.discovery Samples.two_versions)
    Samples.base_handshake (Samples.data_frame "/topic/X" 77 "t1") Samples.w0
  = TimeoutAdviceMixin.messages_body (Samples.data_frame "/topic/X" 77 "t1")
      (add_tasks [TStoreReplayId (JStr "/topic/X") (JInt 77) (JStr "t1")] Samples.w0).
Proof.
  refine (proj1 (all_mixin_passes_frame (Samples.discovery Samples.two_versions)
            Samples.base_handshake (Samples.data_frame "/topic/X" 77 "t1")
            Samples.w0 _ _) _ _).
  - eexists _, _. split; reflexivity.
  - reflexivity.
  - reflexivity.
Defined.

(** *** ReplayMixin: frames without a readable event *)

(** C10, as stated, fails: the frame [{"channel": "/topic/X", "data": null}]
    is on a channel that is not a meta channel and its [data] has no
    [event]; the loop body raises [TypeError], which is not a lookup
    error. *)
Lemma replay_messages_null_data_raises_type_error :
  ReplayMixin.messages_body
    (JObj {["channel" := JStr "/topic/X"; "data" := JNull]}) Samples.w0
    = (Raise TypeError, Samples.w0)
  ∧ is_LookupError TypeError = false.
Proof. split; [vm_compute; reflexivity | reflexivity]. Qed.

(** C10, amended: for a frame on a channel that is not a meta channel,
    [messages] raises instead of yielding the frame, on an unchanged state,
    and ends there whatever frames the inner generator had next: with a
    lookup error ([KeyError]) when the frame has no [data] key, when [data]
    is an object without an [event] key, and when [event] is an object
    without [replayId] or without [createdDate]; with [TypeError] when
    [data], or the [event] of an object [data], is present but is not an
    object. *)
Theorem replay_messages_raises_without_replay_event
    (m : gmap string json) (ch : string) (rest : list json) (w : world) :
  m !! "channel" = Some (JStr ch) →
  String.prefix "/meta/" ch = false →
  (lacks_replay_event m →
   ∃ k, is_LookupError (KeyError (JStr k)) = true
        ∧ ReplayMixin.messages_body (JObj m) w = (Raise (KeyError (JStr k)), w)
        ∧ ReplayMixin.messages (JObj m :: rest) w
          = (([], Some (KeyError (JStr k))), w))
  ∧ (∀ v, is_object v = false →
       (m !! "data" = Some v
        ∨ ∃ d, m !! "data" = Some (JObj d) ∧ d !! "event" = Some v) →
       ReplayMixin.messages_body (JObj m) w = (Raise TypeError, w)
       ∧ ReplayMixin.messages (JObj m :: rest) w = (([], Some TypeError), w)).
Proof.
  intros Hc Hmeta. split.
  - intros Hlack.
    assert (∃ k, ReplayMixin.messages_body (JObj m) w
                 = (Raise (KeyError (JStr k)), w)) as [k Hk].
    { unfold ReplayMixin.messages_body, bind, lift, py_getitem, py_startswith.
      rewrite Hc, Hmeta. cbn [negb].
      destruct Hlack as [Hd | (d & Hd & [He | (e & He & Hkeys)])].
      - rewrite Hd. eauto.
      - rewrite Hd, He. eauto.
      - rewrite Hd, He.
        destruct (e !! "replayId") as [r|]; [|eauto].
        destruct Hkeys as [Hr | Ht]; [discriminate|]. rewrite Ht. eauto. }
    exists k. split; [reflexivity|]. split; [exact Hk|].
    unfold ReplayMixin.messages. apply async_for_raise. exact Hk.
  - intros v Hv Hshape.
    assert (Hb : ReplayMixin.messages_body (JObj m) w = (Raise TypeError, w)).
    { apply (replay_messages_raises_on_non_object m ch v w Hc Hmeta);
        [apply is_object_false_inv; exact Hv | exact Hshape]. }
    split; [exact Hb|].
    unfold ReplayMixin.messages. apply async_for_raise. exact Hb.
Qed.

Lemma replay_messages_raises_without_replay_event_witness :
  (∃ k, is_LookupError (KeyError (JStr k)) = true
        ∧ ReplayMixin.messages_body (Samples.no_data_frame "/topic/X") Samples.w0
          = (Raise (KeyError (JStr k)), Samples.w0)
        ∧ ReplayMixin.messages
            [Samples.no_data_frame "/topic/X"; Samples.data_frame "/topic/X" 77 "t1"]
            Samples.w0
          = (([], Some (KeyError (JStr k))), Samples.w0))
  ∧ ReplayMixin.messages
      [JObj {["channel" := JStr "/topic/X"; "data" := JNull]};
       Samples.data_frame "/topic/X" 77 "t1"] Samples.w0
    = (([], Some TypeError), Samples.w0).
Proof.
  split.
  - refine (proj1 (replay_messages_raises_without_replay_event
                     {["channel" := JStr "/topic/X"]} "/topic/X"
                     [Samples.data_frame "/topic/X" 77 "t1"] Samples.w0 _ _) _).
    + reflexivity.
    + reflexivity.
    + left. reflexivity.
  - refine (proj2 (proj2 (replay_messages_raises_without_replay_event
                     {["channel" := JStr "/topic/X"; "data" := JNull]} "/topic/X"
                     [Samples.data_frame "/topic/X" 77 "t1"] Samples.w0 _ _)
              JNull _ _)).
    + reflexivity.
    + reflexivity.
    + reflexivity.
    + left. reflexivity.
Defined.

(** *** TimeoutAdviceMixin: an integer advice *)

(** X24: on a [/meta/connect] frame whose [advice.timeout] is the integer
    [T]: when [T] is zero the frame is yielded and the state is left as it
    was; when [T] is not zero and [T / 1000] fits a [float], the frame is
    yielded and the session timeout becomes that float, the binary64 value
    nearest to the quotient; when the quotient is too large for a
    [float], the division raises [OverflowError], the state is unchanged,
    the frame is not yielded and [messages] ends there. The division
    raises nothing else. *)
Theorem timeout_advice_sets_timeout
    (m a : gmap string json) (T : Z) (rest : list json) (w : world) :
  m !! "channel" = Some (JStr "/meta/connect") →
  m !! "advice" = Some (JObj a) →
  a !! "timeout" = Some (JInt T) →
  (T = 0 →
   TimeoutAdviceMixin.messages_body (JObj m) w = (Return (Some (JObj m)), w))
  ∧ (T ≠ 0 → ∀ x, int_truediv T 1000 = Return x →
       TimeoutAdviceMixin.messages_body (JObj m) w
         = (Return (Some (JObj m)), set_timeout (JFloat x) w))
  ∧ (T ≠ 0 → ∀ e, int_truediv T 1000 = Raise e →
       e = OverflowError
       ∧ TimeoutAdviceMixin.messages_body (JObj m) w = (Raise OverflowError, w)
       ∧ TimeoutAdviceMixin.messages (JObj m :: rest) w
         = (([], Some OverflowError), w)).
Proof.
  intros Hc Ha Ht.
  assert (Hbody : TimeoutAdviceMixin.messages_body (JObj m) w =
    if T =? 0 then (Return (Some (JObj m)), w)
    else match int_truediv T 1000 with
         | Return x => (Return (Some (JObj m)), set_timeout (JFloat x) w)
         | Raise e => (Raise e, w)
         end).
  { unfold TimeoutAdviceMixin.messages_body, bind, lift, py_get, py_in, py_getitem.
    rewrite Hc, Ha. cbn [py_eq_str String.eqb Ascii.eqb Bool.eqb].
    rewrite Ht. cbn [py_truthy py_truediv].
    destruct (T =? 0); [reflexivity|]. cbn [negb].
    destruct (int_truediv T 1000); reflexivity. }
  split; [|split].
  - intros ->. rewrite Hbody. reflexivity.
  - intros HT x Hx. rewrite Hbody, Hx.
    destruct (Z.eqb_spec T 0); [contradiction | reflexivity].
  - intros HT e He.
    assert (e = OverflowError) as ->.
    { unfold int_truediv, finite_or_overflow in He.
      destruct T as [|p|p]; [discriminate| |];
        destruct (SFdiv _ _ _ _); congruence. }
    assert (Hb : TimeoutAdviceMixin.messages_body (JObj m) w
                 = (Raise OverflowError, w)).
    { rewrite Hbody, He. destruct (Z.eqb_spec T 0); [contradiction | reflexivity]. }
    split; [reflexivity|]. split; [exact Hb|].
    unfold TimeoutAdviceMixin.messages. apply async_for_raise. exact Hb.
Qed.

Lemma timeout_advice_sets_timeout_witness :
  TimeoutAdviceMixin.messages_body (Samples.connect_frame 110000) Samples.w0
    = (Return (Some (Samples.connect_frame 110000)),
       set_timeout (JFloat (S754_finite false 7740561859543040 (-46))) Samples.w0)
  ∧ TimeoutAdviceMixin.messages_body (Samples.connect_frame 1) Samples.w0
    = (Return (Some (Samples.connect_frame 1)),
       set_timeout (JFloat (S754_finite false 4611686018427388 (-62))) Samples.w0)
  ∧ TimeoutAdviceMixin.messages_body (Samples.connect_frame (10 ^ 400)) Samples.w0
    = (Raise OverflowError, Samples.w0).
Proof.
  split; [|split].
  - refine (proj1 (proj2 (timeout_advice_sets_timeout _ {["timeout" := JInt 110000]}
                     110000 [] Samples.w0 _ _ _)) _ _ _).
    + reflexivity.
    + reflexivity.
    + reflexivity.
    + discriminate.
    + vm_compute. reflexivity.
  - refine (proj1 (proj2 (timeout_advice_sets_timeout _ {["timeout" := JInt 1]}
                     1 [] Samples.w0 _ _ _)) _ _ _).
    + reflexivity.
    + reflexivity.
    + reflexivity.
    + discriminate.
    + vm_compute. reflexivity.
  - refine (proj1 (proj2 (proj2 (proj2 (timeout_advice_sets_timeout _
                     {["timeout" := JInt (10 ^ 400)]}
                     (10 ^ 400) [] Samples.w0 _ _ _)) _ OverflowError _))).
    + reflexivity.
    + reflexivity.
    + reflexivity.
    + vm_compute. discriminate.
    + vm_compute. reflexivity.
Defined.
